(** * DB Builder AI: the two-stage extraction pipeline of [backend/ai/main.py]

    A shallow embedding of the image normaliser ([process_image]), of the
    declared output models ([Column], [Table], [Relationship],
    [DatabaseSchema]) and of the boundary operation ([generate_schema]),
    followed by the properties of the design document that concern them.

    Effects are explicit: a computation yields the events it performed
    (log lines, the upload read, the two upstream calls) and either an
    exception or a value.  What the program only consumes -- the image
    codec, the two model endpoints, the text of an exception -- is an
    interface whose operations the theorems quantify over. *)

From Stdlib Require Import String Ascii List ZArith NArith QArith Lia Bool.
From Stdlib Require Import Decimal DecimalString.
From Stdlib Require Strings.Byte.
Import ListNotations.
Close Scope Q_scope.
Open Scope string_scope.
Open Scope list_scope.
Set Warnings "-register-all".

Definition bytes : Type := list Byte.byte.

(** ** Python's [base64.b64encode] (RFC 4648, standard alphabet, padded) *)

Module base64.

Definition alphabet : string :=
  "ABCDEFGHIJKLMNOPQRSTUVWXYZabcdefghijklmnopqrstuvwxyz0123456789+/".

Definition digit (n : N) : ascii :=
  match String.get (N.to_nat n) alphabet with
  | Some c => c
  | None => "="%char
  end.

(** The 6-bit field of the 24-bit group [g] that starts at bit [sh]. *)
Definition sextet (g : N) (sh : N) : ascii :=
  digit (N.land (N.shiftr g sh) 63).

Fixpoint b64encode (s : bytes) : string :=
  match s with
  | [] => ""
  | [a] =>
      let g := N.shiftl (Byte.to_N a) 16 in
      String (sextet g 18) (String (sextet g 12) "==")
  | [a; b] =>
      let g := N.lor (N.shiftl (Byte.to_N a) 16) (N.shiftl (Byte.to_N b) 8) in
      String (sextet g 18) (String (sextet g 12) (String (sextet g 6) "="))
  | a :: b :: c :: rest =>
      let g := N.lor (N.lor (N.shiftl (Byte.to_N a) 16)
                            (N.shiftl (Byte.to_N b) 8)) (Byte.to_N c) in
      String (sextet g 18) (String (sextet g 12)
        (String (sextet g 6) (String (sextet g 0) (b64encode rest))))
  end.

End base64.

(** ** JSON values, as the extraction model's output is parsed *)

Inductive json :=
| JNull
| JBool (b : bool)
| JNum (q : Q)
| JStr (s : string)
| JArr (items : list json)
| JObj (members : list (string * json)).

(** Member lookup in a parsed object: of a repeated key the last one wins. *)
Fixpoint get (key : string) (members : list (string * json)) : option json :=
  match members with
  | [] => None
  | (k, v) :: rest =>
      match get key rest with
      | Some later => Some later
      | None => if String.eqb key k then Some v else None
      end
  end.

(** ** Exceptions *)

Inductive loc_item :=
| Key (name : string)
| Idx (i : nat).

(** One line of a pydantic [ValidationError]: where, and which rule failed. *)
Record ErrorDetails := { loc : list loc_item; err_type : string }.

(** The exceptions of the program, all of them subclasses of [Exception]. *)
Inductive exn :=
| TypeError (msg : string)
| IndexError (msg : string)
| LibraryError (cls msg : string)
| ValidationError (title : string) (errors : list ErrorDetails)
| ValidationExhaustion (attempts : nat) (errors : list ErrorDetails)
| HTTPException (status_code : Z) (detail : string).

(** ** Chat messages and observable events *)

Inductive part :=
| TextPart (text : string)
| ImageUrlPart (url : string).

Inductive content_t :=
| Text (s : string)
| Parts (ps : list part)
| RawOutput (raw : option json)
| Feedback (e : exn).

Record message := { role : string; content : content_t }.

Inductive event :=
| Log (level msg : string)
| FileRead
| ChatCall (model : string) (messages : list message) (max_tokens : Z)
| StructuredCall (model : string) (messages : list message).

(** ** Computations: the events performed, then an exception or a value *)

Definition M (A : Type) : Type := (list event * (exn + A))%type.

Definition ret {A} (a : A) : M A := ([], inr a).

Definition bind {A B} (m : M A) (k : A -> M B) : M B :=
  match m with
  | (t, inl e) => (t, inl e)
  | (t, inr a) => let (t', r) := k a in (t ++ t', r)
  end.

Definition raise {A} (e : exn) : M A := ([], inl e).

Definition lift {A} (r : exn + A) : M A := ([], r).

Definition emit (ev : event) : M unit := ([ev], inr tt).

(** [try: m  except Exception as e: h e] *)
Definition try_except {A} (m : M A) (h : exn -> M A) : M A :=
  match m with
  | (t, inl e) => let (t', r) := h e in (t ++ t', r)
  | (t, inr a) => (t, inr a)
  end.

Definition trace {A} (m : M A) : list event := fst m.
Definition outcome {A} (m : M A) : exn + A := snd m.

Declare Scope py_scope.
Delimit Scope py_scope with py.
Notation "x <- m ;; k" := (bind m (fun x => k))
  (at level 100, m at next level, right associativity) : py_scope.
Notation "m ;;; k" := (bind m (fun _ => k))
  (at level 100, right associativity) : py_scope.
Open Scope py_scope.

Definition logger_info (msg : string) : M unit := emit (Log "INFO" msg).
Definition logger_error (msg : string) : M unit := emit (Log "ERROR" msg).

(** ** Python values that [getpixel] can return, and the builtin [sum] *)

Inductive pyvalue :=
| PyInt (n : Z)
| PyTuple (items : list Z).

(** [sum(v)] iterates over [v]; an [int] is not iterable. *)
Definition sum (v : pyvalue) : exn + Z :=
  match v with
  | PyInt _ => inl (TypeError "'int' object is not iterable")
  | PyTuple items => inr (fold_left Z.add items 0%Z)
  end.

(** ** Pillow images *)

Inductive mode := L | RGB.

(** An image in one of the two modes the normaliser works in: its size
    (width, height) and its pixels in row-major order. *)
Inductive image :=
| ImageL (size : nat * nat) (data : list Z)
| ImageRGB (size : nat * nat) (data : list (Z * Z * Z)).

Definition image_mode (im : image) : mode :=
  match im with ImageL _ _ => L | ImageRGB _ _ => RGB end.

(** ITU-R 601-2 luma, in Pillow's fixed-point form. *)
Definition rgb2l (p : Z * Z * Z) : Z :=
  let '(r, g, b) := p in
  Z.shiftr (r * 19595 + g * 38470 + b * 7471 + 32768) 16.

Definition convert (m : mode) (im : image) : image :=
  match m, im with
  | L, ImageL sz d => ImageL sz d
  | L, ImageRGB sz d => ImageL sz (map rgb2l d)
  | RGB, ImageL sz d => ImageRGB sz (map (fun v => (v, v, v)) d)
  | RGB, ImageRGB sz d => ImageRGB sz d
  end.

Definition merge_bands (r g b : list Z) : list (Z * Z * Z) :=
  map (fun '(x, (y, z)) => (x, y, z)) (combine r (combine g b)).

(** What the program takes from Pillow without defining it: the decoder
    behind [Image.open] (with the lazy load that [convert] forces), the
    resampling filter of [resize] on one band, [ImageOps.autocontrast] and
    the PNG encoder behind [image.save]. *)
Class Pillow := {
  Image_open : bytes -> exn + image;
  resample : nat * nat -> nat * nat -> list Z -> list Z;
  resample_length : forall src dst band,
    length (resample src dst band) = (fst dst * snd dst)%nat;
  autocontrast : image -> exn + image;
  save_png : image -> exn + bytes
}.

Section Normalizer.
Context {pil : Pillow}.

(** [im.resize(size)]: every band is resampled; the mode is kept. *)
Definition resize (size : nat * nat) (im : image) : image :=
  match im with
  | ImageL sz d => ImageL size (resample sz size d)
  | ImageRGB sz d =>
      ImageRGB size
        (merge_bands (resample sz size (map (fun p => fst (fst p)) d))
                     (resample sz size (map (fun p => snd (fst p)) d))
                     (resample sz size (map snd d)))
  end.

(** [im.getpixel((x, y))]: a number for a single-band image, a tuple for
    a multi-band one. *)
Definition getpixel (im : image) (xy : nat * nat) : exn + pyvalue :=
  let '(x, y) := xy in
  let out_of_range := inl (IndexError "image index out of range") in
  match im with
  | ImageL (w, h) d =>
      if (x <? w)%nat && (y <? h)%nat then
        match nth_error d (y * w + x) with
        | Some v => inr (PyInt v)
        | None => out_of_range
        end
      else out_of_range
  | ImageRGB (w, h) d =>
      if (x <? w)%nat && (y <? h)%nat then
        match nth_error d (y * w + x) with
        | Some (r, g, b) => inr (PyTuple [r; g; b])
        | None => out_of_range
        end
      else out_of_range
  end.

(** [ImageOps.invert]: the lookup table [255 - i] on every band. *)
Definition invert (im : image) : image :=
  match im with
  | ImageL sz d => ImageL sz (map (fun v => 255 - v)%Z d)
  | ImageRGB sz d =>
      ImageRGB sz (map (fun '(r, g, b) => (255 - r, 255 - g, 255 - b))%Z d)
  end.

(** The body of the [try] block of [process_image]. *)
Definition process_image_try (image_bytes : bytes) : M string :=
  opened <- lift (Image_open image_bytes) ;;
  let image := convert RGB opened in
  px <- lift (getpixel (resize (1, 1)%nat (convert L image)) (0, 0)%nat) ;;
  brightness <- lift (sum px) ;;
  image <- (if (brightness <? 128)%Z
            then (logger_info "🌑 Dark mode detected. Inverting." ;;;
                  ret (invert image))
            else ret image) ;;
  image <- lift (autocontrast image) ;;
  buffer <- lift (save_png image) ;;
  ret (base64.b64encode buffer).

Definition process_image (image_bytes : bytes) : M string :=
  try_except (process_image_try image_bytes)
             (fun _ => ret (base64.b64encode image_bytes)).

End Normalizer.

(** ** The declared output models *)

Definition SQLiteType : list string :=
  ["UUID"; "TEXT"; "INTEGER"; "BOOLEAN"; "TIMESTAMP"; "JSON"].

Definition RelationshipType : list string := ["1:1"; "1:N"; "N:N"].

Record Column := {
  col_name : string;
  col_type : string;
  is_primary_key : bool;
  is_foreign_key : bool
}.

Record Table := { tbl_name : string; columns : list Column }.

Record Relationship := {
  from_table : string;
  from_column : string;
  to_table : string;
  to_column : string;
  rel_type : string
}.

Record DatabaseSchema := {
  tables : list Table;
  relationships : list Relationship
}.

(** ** pydantic's validation of a declared model (strict mode, JSON input)

    The structured call validates the model's output strictly: a value is
    taken only in the JSON type of the field, without conversion.  A
    validator yields the value or the list of every error found; the
    errors of all the fields of a model are collected. *)

Definition vresult (A : Type) : Type := (list ErrorDetails + A)%type.

Definition invalid {A} (ty : string) : vresult A :=
  inl [{| loc := []; err_type := ty |}].

Definition at_loc {A} (i : loc_item) (r : vresult A) : vresult A :=
  match r with
  | inl es => inl (map (fun e => {| loc := i :: loc e; err_type := err_type e |}) es)
  | inr a => inr a
  end.

Definition ap {A B} (f : vresult (A -> B)) (x : vresult A) : vresult B :=
  match f, x with
  | inr g, inr a => inr (g a)
  | inl e1, inl e2 => inl (e1 ++ e2)
  | inl e1, inr _ => inl e1
  | inr _, inl e2 => inl e2
  end.

Notation "f <*> x" := (ap f x) (at level 40, left associativity) : py_scope.
Arguments ap : simpl never.

(** The errors a validator reported, none when it accepted. *)
Definition errors_of {A} (r : vresult A) : list ErrorDetails :=
  match r with
  | inl es => es
  | inr _ => []
  end.

(** A field annotated [str]. *)
Definition validate_str (v : json) : vresult string :=
  match v with
  | JStr s => inr s
  | _ => invalid "string_type"
  end.

(** A field annotated [bool]: only the JSON booleans are taken; a number
    such as 1 or a spelling such as ["yes"] is an error. *)
Definition validate_bool (v : json) : vresult bool :=
  match v with
  | JBool b => inr b
  | _ => invalid "bool_type"
  end.

(** A field annotated [Literal[...]]: the input must be one of the listed
    strings, compared as strings. *)
Definition validate_literal (allowed : list string) (v : json) : vresult string :=
  match v with
  | JStr s => if existsb (String.eqb s) allowed then inr s else invalid "literal_error"
  | _ => invalid "literal_error"
  end.

Fixpoint validate_items {A} (validate : json -> vresult A) (i : nat)
    (items : list json) : vresult (list A) :=
  match items with
  | [] => inr []
  | v :: rest =>
      inr cons <*> at_loc (Idx i) (validate v)
               <*> validate_items validate (S i) rest
  end.

(** A field annotated [List[...]]. *)
Definition validate_list {A} (validate : json -> vresult A) (v : json)
    : vresult (list A) :=
  match v with
  | JArr items => validate_items validate 0 items
  | _ => invalid "list_type"
  end.

(** A field without a default: [x: T] or [Field(...)]. *)
Definition required {A} (o : list (string * json)) (key : string)
    (validate : json -> vresult A) : vresult A :=
  match get key o with
  | Some v => at_loc (Key key) (validate v)
  | None => inl [{| loc := [Key key]; err_type := "missing" |}]
  end.

(** A field with a default: [x: T = default]. *)
Definition defaulted {A} (o : list (string * json)) (key : string)
    (validate : json -> vresult A) (default : A) : vresult A :=
  match get key o with
  | Some v => at_loc (Key key) (validate v)
  | None => inr default
  end.

Definition validate_Column (v : json) : vresult Column :=
  match v with
  | JObj o =>
      inr Build_Column
        <*> required o "name" validate_str
        <*> required o "type" (validate_literal SQLiteType)
        <*> defaulted o "is_primary_key" validate_bool false
        <*> defaulted o "is_foreign_key" validate_bool false
  | _ => invalid "model_type"
  end.

Definition validate_Table (v : json) : vresult Table :=
  match v with
  | JObj o =>
      inr Build_Table
        <*> required o "name" validate_str
        <*> required o "columns" (validate_list validate_Column)
  | _ => invalid "model_type"
  end.

Definition validate_Relationship (v : json) : vresult Relationship :=
  match v with
  | JObj o =>
      inr Build_Relationship
        <*> required o "from_table" validate_str
        <*> required o "from_column" validate_str
        <*> required o "to_table" validate_str
        <*> required o "to_column" validate_str
        <*> defaulted o "type" (validate_literal RelationshipType) "1:N"
  | _ => invalid "model_type"
  end.

Definition validate_DatabaseSchema (v : json) : vresult DatabaseSchema :=
  match v with
  | JObj o =>
      inr Build_DatabaseSchema
        <*> required o "tables" (validate_list validate_Table)
        <*> required o "relationships" (validate_list validate_Relationship)
  | _ => invalid "model_type"
  end.

(** [DatabaseSchema.model_validate_json] on the model's raw output; [None]
    is an output that is not JSON at all. *)
Definition model_validate_json (raw : option json) : vresult DatabaseSchema :=
  match raw with
  | Some v => validate_DatabaseSchema v
  | None => invalid "json_invalid"
  end.

(** ** Reading the members of a raw output *)

Definition members_of (v : json) : list (string * json) :=
  match v with
  | JObj o => o
  | _ => []
  end.

Definition items_at (key : string) (v : json) : list json :=
  match get key (members_of v) with
  | Some (JArr items) => items
  | _ => []
  end.

Definition json_tables (v : json) : list json := items_at "tables" v.

(** The column objects of all the tables of an output. *)
Definition json_columns (v : json) : list json :=
  flat_map (items_at "columns") (json_tables v).

Definition json_relationships (v : json) : list json :=
  items_at "relationships" v.

(** The [type] member of the object [v] is, as a string, one of [allowed]. *)
Definition type_is_literal (allowed : list string) (v : json) : Prop :=
  exists s, get "type" (members_of v) = Some (JStr s) /\ In s allowed.

Definition type_is_absent (v : json) : Prop :=
  get "type" (members_of v) = None.

(** ** Configuration and upstream collaborators *)

Record Settings := {
  HF_ACCESS_TOKEN : string;
  CORS_ORIGINS : list string;
  HF_BASE_URL : string;
  VISION_MODEL_ID : string;
  BRAIN_MODEL_ID : string
}.

(** [choice.message.content] of a completion. *)
Record Choice := { reply : option string }.

Record ChatCompletion := { choices : list Choice }.

(** The OpenAI-compatible service behind [client].  [complete] is what one
    call of [create] without a response model comes to in the end: the
    completion, or the exception raised once the HTTP client has given up,
    after whatever resending of a failed request it does on its own.
    [complete_json] is one round trip of a JSON-mode completion whose
    content is handed over parsed ([None]: not JSON); it also gets the
    number of round trips already made for the request, so that a double
    may answer differently from one attempt to the next. *)
Class Endpoint := {
  complete : string -> list message -> Z -> exn + ChatCompletion;
  complete_json : nat -> string -> list message -> exn + option json
}.

(** Python's [str(e)], which every exception class defines for itself. *)
Class ExceptionText := { str : exn -> string }.

Record UploadFile := {
  content_type : option string;
  read : exn + bytes
}.

(** [xs[0]] *)
Definition getitem0 {A} (xs : list A) : exn + A :=
  match xs with
  | x :: _ => inr x
  | [] => inl (IndexError "list index out of range")
  end.

(** How an f-string renders a value that may be [None]. *)
Definition format_optional (o : option string) : string :=
  match o with
  | Some s => s
  | None => "None"
  end.

Definition format_nat (n : nat) : string :=
  NilEmpty.string_of_uint (Nat.to_uint n).

(** [x in xs] for an optional string [x] and a list of strings. *)
Definition contains (xs : list string) (x : option string) : bool :=
  match x with
  | Some s => existsb (String.eqb s) xs
  | None => false
  end.

Definition is_structured_call (ev : event) : bool :=
  match ev with StructuredCall _ _ => true | _ => false end.

Definition is_chat_call (ev : event) : bool :=
  match ev with ChatCall _ _ _ => true | _ => false end.

Definition is_file_read (ev : event) : bool :=
  match ev with FileRead => true | _ => false end.

(** How often the events [t] invoke a kind of operation. *)
Definition invocations (kind : event -> bool) (t : list event) : nat :=
  length (filter kind t).

Section Pipeline.
Context {pil : Pillow} {ep : Endpoint} {txt : ExceptionText}.
Variable settings : Settings.

(** [client.chat.completions.create(model=, messages=, max_tokens=)]
    without a response model.  The event stands for this one invocation;
    requests that the HTTP client resends inside it are not events. *)
Definition create (model : string) (messages : list message) (max_tokens : Z)
    : M ChatCompletion :=
  emit (ChatCall model messages max_tokens) ;;;
  lift (complete model messages max_tokens).

(** Modelled from the spec: the retry loop behind
    [client.chat.completions.create(response_model=, max_retries=)], which
    belongs to the instructor library and is not part of the sources.  Each
    attempt is a full round trip; an output that does not validate is fed
    back in a corrective exchange and the call is reissued, an upstream
    error reissues the call as it was; [max_retries] bounds the reissues
    made after the first attempt.  Past the bound the request fails: with
    the exhaustion failure when the last output did not validate, with the
    upstream error otherwise. *)
Fixpoint create_structured (max_retries : nat) (attempt : nat) (model : string)
    (messages : list message) : M DatabaseSchema :=
  emit (StructuredCall model messages) ;;;
  match complete_json attempt model messages with
  | inl e =>
      match max_retries with
      | O => raise e
      | S retries => create_structured retries (S attempt) model messages
      end
  | inr raw =>
      match model_validate_json raw with
      | inr schema => ret schema
      | inl errors =>
          match max_retries with
          | O => raise (ValidationExhaustion (S attempt) errors)
          | S retries =>
              create_structured retries (S attempt) model
                (messages ++
                 [ {| role := "assistant"; content := RawOutput raw |};
                   {| role := "user";
                      content := Feedback (ValidationError "DatabaseSchema" errors) |} ])
          end
      end
  end.

(** The message of stage 1, around the data URL of the image. *)
Definition vision_messages (data_url : string) : list message :=
  [ {| role := "user";
       content := Parts
         [ TextPart "List all tables, columns (with inferred types), and relationships in this ER diagram.";
           ImageUrlPart data_url ] |} ].

(** The messages of stage 2, around the description of stage 1. *)
Definition brain_messages (description : option string) : list message :=
  [ {| role := "system";
       content := Text "You are a senior Data Engineer. Extract the database schema strictly." |};
    {| role := "user";
       content := Text ("Create the schema based on this description:" ++
                        String "010" (String "010" (format_optional description)))%string |} ].

(** The [try] block of [generate_schema]. *)
Definition generate_schema_try (file : UploadFile) : M DatabaseSchema :=
  content <- (emit FileRead ;;; lift (read file)) ;;
  b64_img <- process_image content ;;
  let data_url := ("data:image/png;base64," ++ b64_img)%string in
  logger_info "👀 Stage 1: Vision Model analyzing..." ;;;
  vision_res <- create (VISION_MODEL_ID settings) (vision_messages data_url) 2000 ;;
  choice <- lift (getitem0 (choices vision_res)) ;;
  let description := reply choice in
  logger_info "🧠 Stage 2: Instructor validating..." ;;;
  schema <- create_structured 2 0 (BRAIN_MODEL_ID settings)
              (brain_messages description) ;;
  logger_info ("🎉 Success! Generated " ++ format_nat (length (tables schema))
               ++ " tables.")%string ;;;
  ret schema.

Definition generate_schema (file : UploadFile) : M DatabaseSchema :=
  if negb (contains ["image/jpeg"; "image/png"; "image/webp"] (content_type file))
  then raise (HTTPException 400 "Invalid file type.")
  else
    try_except (generate_schema_try file)
      (fun e =>
         logger_error ("AI Error: " ++ str e)%string ;;;
         raise (HTTPException 500 ("Processing failed: " ++ str e)%string)).

End Pipeline.

(** ** The response of the boundary

    [generate_schema] is registered with [response_model=DatabaseSchema]:
    the schema it returns goes out with every declared field, under the
    field's name. *)

Definition model_dump_Column (c : Column) : json :=
  JObj [ ("name", JStr (col_name c));
         ("type", JStr (col_type c));
         ("is_primary_key", JBool (is_primary_key c));
         ("is_foreign_key", JBool (is_foreign_key c)) ].

Definition model_dump_Table (T : Table) : json :=
  JObj [ ("name", JStr (tbl_name T));
         ("columns", JArr (map model_dump_Column (columns T))) ].

Definition model_dump_Relationship (r : Relationship) : json :=
  JObj [ ("from_table", JStr (from_table r));
         ("from_column", JStr (from_column r));
         ("to_table", JStr (to_table r));
         ("to_column", JStr (to_column r));
         ("type", JStr (rel_type r)) ].

Definition model_dump (schema : DatabaseSchema) : json :=
  JObj [ ("tables", JArr (map model_dump_Table (tables schema)));
         ("relationships", JArr (map model_dump_Relationship (relationships schema))) ].

(** ** Kinds of log lines *)

Definition is_error_log (ev : event) : bool :=
  match ev with
  | Log level _ => String.eqb level "ERROR"
  | _ => false
  end.

Definition is_log (ev : event) : bool :=
  match ev with Log _ _ => true | _ => false end.

(** The line [generate_schema] logs before it returns [schema]. *)
Definition success_line (schema : DatabaseSchema) : event :=
  Log "INFO" ("🎉 Success! Generated " ++ format_nat (length (tables schema))
              ++ " tables.")%string.

(** ** The parts of a run of [generate_schema], by name *)

Definition ACCEPTED : list string := ["image/jpeg"; "image/png"; "image/webp"].

Definition data_url (b64_img : string) : string :=
  ("data:image/png;base64," ++ b64_img)%string.

(** What an accepted upload with body [content] has done once the vision
    call is sent. *)
Definition stage1_events (settings : Settings) (content : bytes) : list event :=
  [ FileRead;
    Log "INFO" "👀 Stage 1: Vision Model analyzing...";
    ChatCall (VISION_MODEL_ID settings)
      (vision_messages (data_url (base64.b64encode content))) 2000 ].

Definition stage2_line : event :=
  Log "INFO" "🧠 Stage 2: Instructor validating...".

(** The line and the answer of the [except] branch for the cause [e]. *)
Definition error_line `{txt : ExceptionText} (e : exn) : event :=
  Log "ERROR" ("AI Error: " ++ str e)%string.

Definition server_error `{txt : ExceptionText} (e : exn) : exn :=
  HTTPException 500 ("Processing failed: " ++ str e)%string.

(** ** Stand-ins for the collaborators, to run the pipeline on examples *)

Definition byte_of_Z (z : Z) : Byte.byte :=
  match Byte.of_N (Z.to_N (z mod 256)) with
  | Some b => b
  | None => Byte.x00
  end.

Fixpoint rgb_rows (payload : bytes) : list (Z * Z * Z) :=
  match payload with
  | r :: g :: b :: rest =>
      (Z.of_N (Byte.to_N r), Z.of_N (Byte.to_N g), Z.of_N (Byte.to_N b))
      :: rgb_rows rest
  | _ => []
  end.

Definition mean (band : list Z) : Z :=
  (fold_left Z.add band 0 / Z.max 1 (Z.of_nat (length band)))%Z.

(** A headerless codec: one byte of width, one of height, then the RGB
    rows; resampling by the mean of the band. *)
Definition raw_codec : Pillow := {|
  Image_open := fun s =>
    match s with
    | w :: h :: payload =>
        let size := (Byte.to_nat w, Byte.to_nat h) in
        if (length payload =? 3 * (fst size * snd size))%nat
        then inr (ImageRGB size (rgb_rows payload))
        else inl (LibraryError "OSError" "image file is truncated")
    | _ => inl (LibraryError "UnidentifiedImageError" "cannot identify image file")
    end;
  resample := fun _ dst band => repeat (mean band) (fst dst * snd dst);
  resample_length := fun _ dst band => repeat_length (mean band) (fst dst * snd dst);
  autocontrast := fun im => inr im;
  save_png := fun im =>
    match im with
    | ImageL (w, h) d =>
        inr (byte_of_Z (Z.of_nat w) :: byte_of_Z (Z.of_nat h)
             :: flat_map (fun v => [byte_of_Z v; byte_of_Z v; byte_of_Z v]) d)
    | ImageRGB (w, h) d =>
        inr (byte_of_Z (Z.of_nat w) :: byte_of_Z (Z.of_nat h)
             :: flat_map (fun '(r, g, b) => [byte_of_Z r; byte_of_Z g; byte_of_Z b]) d)
    end
|}.

(** A 1x1 black image, a 1x1 white image and a byte that is no image,
    in the format of [raw_codec]. *)
Definition black_pixel : bytes := [Byte.x01; Byte.x01; Byte.x00; Byte.x00; Byte.x00].
Definition white_pixel : bytes := [Byte.x01; Byte.x01; Byte.xff; Byte.xff; Byte.xff].
Definition not_an_image : bytes := [Byte.xde].

(** Exception texts for the examples. *)
Definition plain_text : ExceptionText := {|
  str := fun e =>
    match e with
    | TypeError msg => msg
    | IndexError msg => msg
    | LibraryError _ msg => msg
    | ValidationError title errors =>
        (format_nat (length errors) ++ " validation errors for " ++ title)%string
    | ValidationExhaustion attempts errors =>
        (format_nat (length errors) ++ " validation errors after "
         ++ format_nat attempts ++ " attempts")%string
    | HTTPException _ detail => detail
    end
|}.

Definition default_settings : Settings := {|
  HF_ACCESS_TOKEN := "hf_example";
  CORS_ORIGINS := ["https://db-builder-production-level.vercel.app"];
  HF_BASE_URL := "https://api-inference.huggingface.co/v1/";
  VISION_MODEL_ID := "Qwen/Qwen2.5-VL-7B-Instruct";
  BRAIN_MODEL_ID := "Qwen/Qwen2.5-Coder-7B-Instruct"
|}.

Definition column_json (name type : string) (flags : list (string * json)) : json :=
  JObj (("name", JStr name) :: ("type", JStr type) :: flags).

Definition users_orders_description : string :=
  "users table with id (uuid, pk) and email (text); orders table with id (uuid, pk) and user_id (uuid, fk) referencing users.id; 1:N relationship".

(** A conforming output for [users_orders_description]; the relationship
    leaves its [type] out. *)
Definition users_orders_json : json :=
  JObj
    [ ("tables", JArr
        [ JObj [ ("name", JStr "users");
                 ("columns", JArr
                    [ column_json "id" "UUID" [("is_primary_key", JBool true)];
                      column_json "email" "TEXT" [] ]) ];
          JObj [ ("name", JStr "orders");
                 ("columns", JArr
                    [ column_json "id" "UUID" [("is_primary_key", JBool true)];
                      column_json "user_id" "UUID" [("is_foreign_key", JBool true)] ]) ] ]);
      ("relationships", JArr
        [ JObj [ ("from_table", JStr "orders"); ("from_column", JStr "user_id");
                 ("to_table", JStr "users"); ("to_column", JStr "id") ] ]) ].

Definition users_orders_schema : DatabaseSchema := {|
  tables :=
    [ {| tbl_name := "users";
         columns :=
           [ {| col_name := "id"; col_type := "UUID";
                is_primary_key := true; is_foreign_key := false |};
             {| col_name := "email"; col_type := "TEXT";
                is_primary_key := false; is_foreign_key := false |} ] |};
      {| tbl_name := "orders";
         columns :=
           [ {| col_name := "id"; col_type := "UUID";
                is_primary_key := true; is_foreign_key := false |};
             {| col_name := "user_id"; col_type := "UUID";
                is_primary_key := false; is_foreign_key := true |} ] |} ];
  relationships :=
    [ {| from_table := "orders"; from_column := "user_id";
         to_table := "users"; to_column := "id"; rel_type := "1:N" |} ]
|}.

(** An output of the right shape but for one column of type ["FLOAT"]. *)
Definition float_column_json : json :=
  JObj
    [ ("tables", JArr
        [ JObj [ ("name", JStr "items");
                 ("columns", JArr [ column_json "price" "FLOAT" [] ]) ] ]);
      ("relationships", JArr []) ].

Definition described : ChatCompletion :=
  {| choices := [ {| reply := Some users_orders_description |} ] |}.

(** An extraction double that parses the description correctly. *)
Definition good_double : Endpoint := {|
  complete := fun _ _ _ => inr described;
  complete_json := fun _ _ _ => inr (Some users_orders_json)
|}.

(** An extraction double that always returns an invalid shape. *)
Definition invalid_double : Endpoint := {|
  complete := fun _ _ _ => inr described;
  complete_json := fun _ _ _ => inr (Some float_column_json)
|}.

(** A vision double whose service is down. *)
Definition failing_vision_double : Endpoint := {|
  complete := fun _ _ _ => inl (LibraryError "APIConnectionError" "Connection error.");
  complete_json := fun _ _ _ => inr (Some users_orders_json)
|}.

Definition png_upload : UploadFile :=
  {| content_type := Some "image/png"; read := inr white_pixel |}.

Definition jpeg_upload : UploadFile :=
  {| content_type := Some "image/jpeg"; read := inr not_an_image |}.

Definition text_upload : UploadFile :=
  {| content_type := Some "text/plain"; read := inr not_an_image |}.

(** A vision double whose completion has a choice without content. *)
Definition silent_vision_double : Endpoint := {|
  complete := fun _ _ _ => inr {| choices := [ {| reply := None |} ] |};
  complete_json := fun _ _ _ => inr (Some users_orders_json)
|}.

(** A vision double whose completion has no choice at all. *)
Definition empty_vision_double : Endpoint := {|
  complete := fun _ _ _ => inr {| choices := [] |};
  complete_json := fun _ _ _ => inr (Some users_orders_json)
|}.

(** An upload whose body cannot be read. *)
Definition unreadable_upload : UploadFile :=
  {| content_type := Some "image/webp";
     read := inl (LibraryError "OSError" "read of closed file") |}.

(** An upload whose content type is spelled in upper case. *)
Definition uppercase_upload : UploadFile :=
  {| content_type := Some "IMAGE/PNG"; read := inr white_pixel |}.

(** ** The image normaliser *)

Lemma b64encode_Man :
  base64.b64encode [Byte.x4d; Byte.x61; Byte.x6e] = "TWFu"
  /\ base64.b64encode [Byte.x4d; Byte.x61] = "TWE="
  /\ base64.b64encode [Byte.x4d] = "TQ==".
Proof. repeat split; reflexivity. Qed.

Section NormalizerFacts.
Context {pil : Pillow}.

Lemma convert_RGB_mode (im : image) :
  exists size data, convert RGB im = ImageRGB size data.
Proof. destruct im; simpl; eauto. Qed.

(** The brightness check asks [getpixel] for a pixel of a single-band
    image and so gets a number. *)
Lemma brightness_pixel_is_int (im : image) :
  exists v, getpixel (resize (1, 1)%nat (convert L (convert RGB im))) (0, 0)%nat
            = inr (PyInt v).
Proof.
  destruct (convert_RGB_mode im) as (size & data & ->).
  cbn [convert resize getpixel].
  pose proof (resample_length size (1, 1)%nat (map rgb2l data)) as Hlen.
  destruct (resample size (1, 1)%nat (map rgb2l data)) as [|v rest].
  - discriminate Hlen.
  - exists v. reflexivity.
Qed.

Lemma process_image_try_decoded (image_bytes : bytes) (im : image) :
  Image_open image_bytes = inr im ->
  process_image_try image_bytes
  = ([], inl (TypeError "'int' object is not iterable")).
Proof.
  intros Hopen. unfold process_image_try.
  rewrite Hopen.
  destruct (brightness_pixel_is_int im) as [v Hv].
  cbn [lift bind]. rewrite Hv. reflexivity.
Qed.

Lemma process_image_try_raises (image_bytes : bytes) :
  exists e, process_image_try image_bytes = ([], inl e).
Proof.
  destruct (Image_open image_bytes) as [e|im] eqn:Hopen.
  - exists e. unfold process_image_try. rewrite Hopen. reflexivity.
  - eexists. eapply process_image_try_decoded, Hopen.
Qed.

Lemma process_image_eq (image_bytes : bytes) :
  process_image image_bytes = ([], inr (base64.b64encode image_bytes)).
Proof.
  unfold process_image.
  destruct (process_image_try_raises image_bytes) as [e ->].
  reflexivity.
Qed.

End NormalizerFacts.

(** C3.  [process_image] never raises: whatever the bytes, it returns a
    string, and whenever the processing inside its [try] block ends in an
    exception, that string is the base64 encoding of the original
    bytes. *)
Theorem process_image_never_raises `{pil : Pillow} (image_bytes : bytes) :
  (exists s, outcome (process_image image_bytes) = inr s)
  /\ (forall e, outcome (process_image_try image_bytes) = inl e ->
      outcome (process_image image_bytes) = inr (base64.b64encode image_bytes)).
Proof.
  unfold process_image.
  destruct (process_image_try image_bytes) as [t [e|s]]; simpl.
  - split; [eauto | reflexivity].
  - split; [eauto | discriminate].
Qed.

Lemma process_image_never_raises_witness :
  outcome (process_image_try (pil := raw_codec) not_an_image)
  = inl (LibraryError "UnidentifiedImageError" "cannot identify image file")
  /\ outcome (process_image (pil := raw_codec) not_an_image) = inr "3g==".
Proof.
  split; [reflexivity|].
  exact (proj2 (process_image_never_raises (pil := raw_codec) not_an_image)
           _ eq_refl).
Defined.

(** C8.  For every input, decodable or not, [process_image] returns the
    base64 encoding of the original bytes and logs nothing: once the image
    is decoded, the brightness check applies [sum] to the integer that
    [getpixel] returns for the grayscale image and raises [TypeError], so
    the [try] block never completes. *)
Theorem process_image_always_falls_back `{pil : Pillow} (image_bytes : bytes) :
  process_image image_bytes = ([], inr (base64.b64encode image_bytes))
  /\ (forall s, outcome (process_image_try image_bytes) <> inr s)
  /\ (forall im, Image_open image_bytes = inr im ->
      process_image_try image_bytes
      = ([], inl (TypeError "'int' object is not iterable"))).
Proof.
  split; [apply process_image_eq|split].
  - intros s. destruct (process_image_try_raises image_bytes) as [e ->].
    discriminate.
  - intros im. apply process_image_try_decoded.
Qed.

Lemma process_image_always_falls_back_witness :
  Image_open (Pillow := raw_codec) white_pixel
  = inr (ImageRGB (1, 1)%nat [(255, 255, 255)%Z])
  /\ process_image_try (pil := raw_codec) white_pixel
     = ([], inl (TypeError "'int' object is not iterable"))
  /\ process_image (pil := raw_codec) white_pixel = ([], inr "AQH///8=").
Proof.
  pose proof (process_image_always_falls_back (pil := raw_codec) white_pixel)
    as (Hfallback & _ & Hsum).
  split; [reflexivity|split].
  - exact (Hsum _ eq_refl).
  - exact Hfallback.
Defined.

(** C2 (what the code does instead).  An image whose single-pixel
    luminance is below 128 is not inverted: no dark-mode line is logged and
    the result is the encoding of the original bytes, not of a processed
    image. *)
Theorem dark_image_is_not_inverted `{pil : Pillow} (image_bytes : bytes)
    (im : image) (v : Z) :
  Image_open image_bytes = inr im ->
  getpixel (resize (1, 1)%nat (convert L (convert RGB im))) (0, 0)%nat
  = inr (PyInt v) ->
  (v < 128)%Z ->
  process_image image_bytes = ([], inr (base64.b64encode image_bytes)).
Proof. intros _ _ _. apply process_image_eq. Qed.

Lemma dark_image_is_not_inverted_witness :
  process_image (pil := raw_codec) black_pixel = ([], inr "AQEAAAA=").
Proof.
  apply (dark_image_is_not_inverted (pil := raw_codec) black_pixel
           (ImageRGB (1, 1)%nat [(0, 0, 0)%Z]) 0%Z);
    [reflexivity | reflexivity | reflexivity].
Defined.

(** ** The validation contract *)

Lemma existsb_eqb_In (s : string) (allowed : list string) :
  existsb (String.eqb s) allowed = true <-> In s allowed.
Proof.
  rewrite existsb_exists. split.
  - intros (x & Hin & Heq). apply String.eqb_eq in Heq. now subst.
  - intros Hin. exists s. split; [assumption | apply String.eqb_refl].
Qed.

Lemma ap_inr {A B} (f : vresult (A -> B)) (x : vresult A) (b : B) :
  f <*> x = inr b -> exists g a, f = inr g /\ x = inr a /\ b = g a.
Proof.
  destruct f as [e1|g], x as [e2|a]; simpl; try discriminate.
  intros [= <-]. eauto.
Qed.

Lemma at_loc_inr {A} (i : loc_item) (r : vresult A) (a : A) :
  at_loc i r = inr a -> r = inr a.
Proof. destruct r; simpl; [discriminate | trivial]. Qed.

Lemma required_inr {A} o key (validate : json -> vresult A) (a : A) :
  required o key validate = inr a ->
  exists v, get key o = Some v /\ validate v = inr a.
Proof.
  unfold required. destruct (get key o) as [v|]; [|discriminate].
  intros H%at_loc_inr. eauto.
Qed.

Lemma defaulted_inr {A} o key (validate : json -> vresult A) (d a : A) :
  defaulted o key validate d = inr a ->
  (get key o = None /\ a = d)
  \/ (exists v, get key o = Some v /\ validate v = inr a).
Proof.
  unfold defaulted. destruct (get key o) as [v|].
  - intros H%at_loc_inr. eauto.
  - intros [= <-]. auto.
Qed.

Lemma validate_str_inr (v : json) (s : string) :
  validate_str v = inr s -> v = JStr s.
Proof. destruct v; simpl; try discriminate. now intros [= ->]. Qed.

Lemma validate_literal_inr allowed (v : json) (s : string) :
  validate_literal allowed v = inr s -> v = JStr s /\ In s allowed.
Proof.
  destruct v as [| | |s'| |]; simpl; try discriminate.
  destruct (existsb (String.eqb s') allowed) eqn:Hmem; [|discriminate].
  intros [= <-]. split; [reflexivity | now apply existsb_eqb_In].
Qed.

Lemma validate_items_inr {A} (validate : json -> vresult A) items :
  forall i out,
    validate_items validate i items = inr out ->
    Forall2 (fun v a => validate v = inr a) items out.
Proof.
  induction items as [|v rest IH]; intros i out; simpl.
  - intros [= <-]. constructor.
  - intros (g & tl & (h & a & [= <-] & Ha%at_loc_inr & ->)%ap_inr & Htl & ->)%ap_inr.
    constructor; [assumption | eapply IH, Htl].
Qed.

Lemma validate_list_inr {A} (validate : json -> vresult A) v out :
  validate_list validate v = inr out ->
  exists items, v = JArr items
                /\ Forall2 (fun x a => validate x = inr a) items out.
Proof.
  destruct v; simpl; try discriminate.
  intros H%validate_items_inr. eauto.
Qed.

Lemma validate_Column_inr (v : json) (c : Column) :
  validate_Column v = inr c ->
  exists o, v = JObj o
    /\ get "name" o = Some (JStr (col_name c))
    /\ get "type" o = Some (JStr (col_type c))
    /\ In (col_type c) SQLiteType
    /\ (get "is_primary_key" o = None -> is_primary_key c = false)
    /\ (get "is_foreign_key" o = None -> is_foreign_key c = false).
Proof.
  destruct v as [| | | | |o]; simpl; try discriminate.
  intros (g4 & fk & (g3 & pk & (g2 & ty & (g1 & nm & [= <-] & Hnm & ->)%ap_inr
            & Hty & ->)%ap_inr & Hpk & ->)%ap_inr & Hfk & ->)%ap_inr.
  apply required_inr in Hnm as (vn & Hgn & ->%validate_str_inr).
  apply required_inr in Hty as (vt & Hgt & (-> & Hin)%validate_literal_inr).
  exists o. simpl. repeat split; try assumption.
  - intros Hnone. apply defaulted_inr in Hpk as [[_ ->]|(x & Hx & _)];
      [reflexivity | congruence].
  - intros Hnone. apply defaulted_inr in Hfk as [[_ ->]|(x & Hx & _)];
      [reflexivity | congruence].
Qed.

Lemma validate_Table_inr (v : json) (T : Table) :
  validate_Table v = inr T ->
  exists o cs, v = JObj o
    /\ get "columns" o = Some (JArr cs)
    /\ Forall2 (fun x c => validate_Column x = inr c) cs (columns T).
Proof.
  destruct v as [| | | | |o]; simpl; try discriminate.
  intros (g2 & cols & (g1 & nm & [= <-] & Hnm & ->)%ap_inr & Hcols & ->)%ap_inr.
  apply required_inr in Hcols as (vc & Hgc & (cs & -> & Hall)%validate_list_inr).
  exists o, cs. simpl. auto.
Qed.

Lemma validate_Relationship_inr (v : json) (r : Relationship) :
  validate_Relationship v = inr r ->
  exists o, v = JObj o
    /\ In (rel_type r) RelationshipType
    /\ ((get "type" o = None /\ rel_type r = "1:N")
        \/ get "type" o = Some (JStr (rel_type r))).
Proof.
  destruct v as [| | | | |o]; simpl; try discriminate.
  intros (g5 & ty & (g4 & tc & (g3 & tt & (g2 & fc & (g1 & ft & [= <-] & _ & ->)%ap_inr
            & _ & ->)%ap_inr & _ & ->)%ap_inr & _ & ->)%ap_inr & Hty & ->)%ap_inr.
  exists o. simpl. split; [reflexivity|].
  apply defaulted_inr in Hty as [[Hnone ->]|(x & Hx & (-> & Hin)%validate_literal_inr)].
  - split; [simpl; auto | left; auto].
  - split; [assumption | right; assumption].
Qed.

Lemma validate_DatabaseSchema_inr (v : json) (schema : DatabaseSchema) :
  validate_DatabaseSchema v = inr schema ->
  exists o ts rs, v = JObj o
    /\ get "tables" o = Some (JArr ts)
    /\ get "relationships" o = Some (JArr rs)
    /\ Forall2 (fun x T => validate_Table x = inr T) ts (tables schema)
    /\ Forall2 (fun x r => validate_Relationship x = inr r) rs (relationships schema).
Proof.
  destruct v as [| | | | |o]; simpl; try discriminate.
  intros (g2 & rels & (g1 & tbls & [= <-] & Ht & ->)%ap_inr & Hr & ->)%ap_inr.
  apply required_inr in Ht as (vt & Hgt & (ts & -> & Hts)%validate_list_inr).
  apply required_inr in Hr as (vr & Hgr & (rs & -> & Hrs)%validate_list_inr).
  exists o, ts, rs. simpl. auto.
Qed.

Lemma Forall2_validated_l {A} (validate : json -> vresult A) xs out :
  Forall2 (fun x a => validate x = inr a) xs out ->
  forall x, In x xs -> exists a, In a out /\ validate x = inr a.
Proof.
  induction 1 as [|x a xs out Hx _ IH]; intros y; simpl; [tauto|].
  intros [<-|Hin]; [eauto|].
  destruct (IH y Hin) as (b & Hb & Hy). eauto.
Qed.

Lemma Forall2_validated_r {A} (validate : json -> vresult A) xs out :
  Forall2 (fun x a => validate x = inr a) xs out ->
  forall a, In a out -> exists x, In x xs /\ validate x = inr a.
Proof.
  induction 1 as [|x a xs out Hx _ IH]; intros b; simpl; [tauto|].
  intros [<-|Hin]; [eauto|].
  destruct (IH b Hin) as (y & Hy & Hb). eauto.
Qed.

Lemma accepted_column_types (v : json) (schema : DatabaseSchema) :
  validate_DatabaseSchema v = inr schema ->
  Forall (type_is_literal SQLiteType) (json_columns v).
Proof.
  intros (o & ts & rs & -> & Hts & _ & Htables & _)%validate_DatabaseSchema_inr.
  unfold json_columns, json_tables, items_at. simpl. rewrite Hts.
  apply Forall_flat_map, Forall_forall. intros t Ht.
  destruct (Forall2_validated_l _ _ _ Htables t Ht) as (T & _ & HT).
  apply validate_Table_inr in HT as (ot & cs & -> & Hcs & Hcols).
  simpl. rewrite Hcs.
  apply Forall_forall. intros x Hx.
  destruct (Forall2_validated_l _ _ _ Hcols x Hx) as (c & _ & Hc).
  apply validate_Column_inr in Hc as (oc & -> & _ & Hty & Hin & _).
  exists (col_type c). auto.
Qed.

Lemma accepted_relationship_types (v : json) (schema : DatabaseSchema) :
  validate_DatabaseSchema v = inr schema ->
  Forall (fun r => type_is_absent r \/ type_is_literal RelationshipType r)
         (json_relationships v).
Proof.
  intros (o & ts & rs & -> & _ & Hrs & _ & Hrels)%validate_DatabaseSchema_inr.
  unfold json_relationships, items_at. simpl. rewrite Hrs.
  apply Forall_forall. intros x Hx.
  destruct (Forall2_validated_l _ _ _ Hrels x Hx) as (r & _ & Hr).
  apply validate_Relationship_inr in Hr as (orl & -> & Hin & [[Hnone _]|Hsome]).
  - left. exact Hnone.
  - right. exists (rel_type r). auto.
Qed.

Lemma schema_relationship_types (v : json) (schema : DatabaseSchema) :
  validate_DatabaseSchema v = inr schema ->
  forall r, In r (relationships schema) -> In (rel_type r) RelationshipType.
Proof.
  intros (o & ts & rs & -> & _ & _ & _ & Hrels)%validate_DatabaseSchema_inr r Hr.
  destruct (Forall2_validated_r _ _ _ Hrels r Hr) as (x & _ & Hx).
  now apply validate_Relationship_inr in Hx as (orl & _ & Hin & _).
Qed.

Lemma schema_column_types (v : json) (schema : DatabaseSchema) :
  validate_DatabaseSchema v = inr schema ->
  forall T c, In T (tables schema) -> In c (columns T) ->
              In (col_type c) SQLiteType.
Proof.
  intros (o & ts & rs & -> & _ & _ & Htables & _)%validate_DatabaseSchema_inr T c HT Hc.
  destruct (Forall2_validated_r _ _ _ Htables T HT) as (t & _ & Ht).
  apply validate_Table_inr in Ht as (ot & cs & _ & _ & Hcols).
  destruct (Forall2_validated_r _ _ _ Hcols c Hc) as (x & _ & Hx).
  now apply validate_Column_inr in Hx as (oc & _ & _ & _ & Hin & _).
Qed.

(** C4.  Validation accepts an output only if the [type] of every column
    object is, as a string, one of the six column literals and the [type]
    of every relationship object, where given, one of the three
    relationship literals; a validated column then holds one of the six
    literals, and the accepted value is the given string itself;
    and an output with any other string there -- ["FLOAT"], say -- is
    rejected. *)
Theorem type_fields_are_exact_literals :
  (forall v schema, validate_DatabaseSchema v = inr schema ->
     Forall (type_is_literal SQLiteType) (json_columns v)
     /\ Forall (fun r => type_is_absent r \/ type_is_literal RelationshipType r)
               (json_relationships v)
     /\ (forall T c, In T (tables schema) -> In c (columns T) ->
                     In (col_type c) SQLiteType))
  /\ (forall o c, validate_Column (JObj o) = inr c ->
        get "type" o = Some (JStr (col_type c)))
  /\ (forall o r x, validate_Relationship (JObj o) = inr r ->
        get "type" o = Some x -> x = JStr (rel_type r))
  /\ (forall v c s, In c (json_columns v) ->
        get "type" (members_of c) = Some (JStr s) -> ~ In s SQLiteType ->
        exists errors, validate_DatabaseSchema v = inl errors)
  /\ (forall v r s, In r (json_relationships v) ->
        get "type" (members_of r) = Some (JStr s) -> ~ In s RelationshipType ->
        exists errors, validate_DatabaseSchema v = inl errors)
  /\ validate_DatabaseSchema float_column_json
     = inl [{| loc := [Key "tables"; Idx 0; Key "columns"; Idx 0; Key "type"];
               err_type := "literal_error" |}].
Proof.
  split; [|split; [|split; [|split; [|split]]]].
  - intros v schema Hok. split; [|split].
    + eapply accepted_column_types, Hok.
    + eapply accepted_relationship_types, Hok.
    + eapply schema_column_types, Hok.
  - intros o c (o' & [= <-] & _ & Hty & _)%validate_Column_inr. exact Hty.
  - intros o r x (o' & [= <-] & _ & [[Hnone _]|Hsome])%validate_Relationship_inr Hx;
      congruence.
  - intros v c s Hc Hty Hout.
    destruct (validate_DatabaseSchema v) as [errors|schema] eqn:Hv; [eauto|].
    exfalso. apply accepted_column_types in Hv.
    rewrite Forall_forall in Hv. destruct (Hv c Hc) as (s' & Hs' & Hin).
    congruence.
  - intros v r s Hr Hty Hout.
    destruct (validate_DatabaseSchema v) as [errors|schema] eqn:Hv; [eauto|].
    exfalso. apply accepted_relationship_types in Hv.
    rewrite Forall_forall in Hv. destruct (Hv r Hr) as [Hnone|(s' & Hs' & Hin)].
    + unfold type_is_absent in Hnone. congruence.
    + congruence.
  - reflexivity.
Qed.

Lemma type_fields_are_exact_literals_witness :
  Forall (type_is_literal SQLiteType) (json_columns users_orders_json)
  /\ (exists errors, validate_DatabaseSchema float_column_json = inl errors).
Proof.
  destruct type_fields_are_exact_literals as (Hacc & _ & _ & Hrej & _ & _).
  split.
  - apply (proj1 (Hacc users_orders_json users_orders_schema eq_refl)).
  - apply (Hrej float_column_json (column_json "price" "FLOAT" []) "FLOAT").
    + simpl. auto.
    + reflexivity.
    + simpl. intros [H|[H|[H|[H|[H|[H|[]]]]]]]; discriminate H.
Defined.

(** The match is case-sensitive: a lower-case spelling of a literal is
    rejected like any other string. *)
Lemma lowercase_type_rejected :
  validate_Column (column_json "email" "text" [])
  = inl [{| loc := [Key "type"]; err_type := "literal_error" |}].
Proof. reflexivity. Qed.

(** Validation is strict: a flag given as the number 1 is an error at
    that flag, not the boolean [True]. *)
Lemma numeric_flag_rejected :
  validate_Column (column_json "id" "UUID" [("is_primary_key", JNum 1)])
  = inl [{| loc := [Key "is_primary_key"]; err_type := "bool_type" |}].
Proof. reflexivity. Qed.

(** C7.  A validated relationship's [type] is one of ["1:1"], ["1:N"],
    ["N:N"]; when the output leaves the member out, the relationship is
    accepted (its four references being strings) with [type] ["1:N"]. *)
Theorem relationship_type_defaults_to_one_to_many :
  (forall v r, validate_Relationship v = inr r ->
     In (rel_type r) ["1:1"; "1:N"; "N:N"])
  /\ (forall v schema r, validate_DatabaseSchema v = inr schema ->
        In r (relationships schema) -> In (rel_type r) ["1:1"; "1:N"; "N:N"])
  /\ (forall o r, validate_Relationship (JObj o) = inr r ->
        get "type" o = None -> rel_type r = "1:N")
  /\ (forall o ft fc tt tc,
        get "from_table" o = Some (JStr ft) ->
        get "from_column" o = Some (JStr fc) ->
        get "to_table" o = Some (JStr tt) ->
        get "to_column" o = Some (JStr tc) ->
        get "type" o = None ->
        validate_Relationship (JObj o)
        = inr {| from_table := ft; from_column := fc;
                 to_table := tt; to_column := tc; rel_type := "1:N" |}).
Proof.
  split; [|split; [|split]].
  - now intros v r (o & _ & Hin & _)%validate_Relationship_inr.
  - intros v schema r Hok. now apply schema_relationship_types with (v := v).
  - intros o r (o' & [= <-] & _ & [[_ Hdef]|Hsome])%validate_Relationship_inr Hnone;
      congruence.
  - intros o ft fc tt tc Hft Hfc Htt Htc Hty.
    unfold validate_Relationship, required, defaulted.
    rewrite Hft, Hfc, Htt, Htc, Hty. reflexivity.
Qed.

Lemma relationship_type_defaults_to_one_to_many_witness :
  validate_Relationship
    (JObj [ ("from_table", JStr "orders"); ("from_column", JStr "user_id");
            ("to_table", JStr "users"); ("to_column", JStr "id") ])
  = inr {| from_table := "orders"; from_column := "user_id";
           to_table := "users"; to_column := "id"; rel_type := "1:N" |}.
Proof.
  apply (proj2 (proj2 (proj2 relationship_type_defaults_to_one_to_many)));
    reflexivity.
Defined.

Lemma errors_of_ap {A B} (f : vresult (A -> B)) (x : vresult A) :
  errors_of (f <*> x) = errors_of f ++ errors_of x.
Proof.
  destruct f, x; unfold ap; simpl; now rewrite ?app_nil_r.
Qed.

Lemma errors_of_at_loc {A} (i : loc_item) (r : vresult A) (e : ErrorDetails) :
  In e (errors_of (at_loc i r)) -> hd_error (loc e) = Some i.
Proof.
  destruct r as [es|a]; simpl; [|tauto].
  rewrite in_map_iff. now intros (e' & <- & _).
Qed.

Lemma errors_of_required {A} o key (validate : json -> vresult A) e :
  In e (errors_of (required o key validate)) ->
  hd_error (loc e) = Some (Key key).
Proof.
  unfold required. destruct (get key o).
  - apply errors_of_at_loc.
  - simpl. now intros [<-|[]].
Qed.

(** A field with a default reports an error only for a member that is
    there. *)
Lemma errors_of_defaulted {A} o key (validate : json -> vresult A) d e :
  In e (errors_of (defaulted o key validate d)) ->
  hd_error (loc e) = Some (Key key) /\ get key o <> None.
Proof.
  unfold defaulted. destruct (get key o).
  - intros H%errors_of_at_loc. split; [assumption | discriminate].
  - simpl. tauto.
Qed.

(** C10.  A column whose output leaves [is_primary_key] or
    [is_foreign_key] out gets [False] for it; the column is accepted
    whenever its name and type are valid and the flags that are given are
    booleans; and no validation error is ever reported at a flag that was
    left out. *)
Theorem omitted_flags_default_to_false :
  (forall o c, validate_Column (JObj o) = inr c ->
     (get "is_primary_key" o = None -> is_primary_key c = false)
     /\ (get "is_foreign_key" o = None -> is_foreign_key c = false))
  /\ (forall o n t,
        get "name" o = Some (JStr n) ->
        get "type" o = Some (JStr t) -> In t SQLiteType ->
        (forall x, get "is_primary_key" o = Some x -> exists b, validate_bool x = inr b) ->
        (forall x, get "is_foreign_key" o = Some x -> exists b, validate_bool x = inr b) ->
        exists c, validate_Column (JObj o) = inr c
                  /\ col_name c = n /\ col_type c = t)
  /\ (forall o key e,
        key = "is_primary_key" \/ key = "is_foreign_key" ->
        get key o = None ->
        In e (errors_of (validate_Column (JObj o))) ->
        hd_error (loc e) <> Some (Key key)).
Proof.
  split; [|split].
  - intros o c (o' & [= <-] & _ & _ & _ & Hpk & Hfk)%validate_Column_inr. auto.
  - intros o n t Hn Ht Hin Hpk Hfk.
    unfold validate_Column, required, defaulted. rewrite Hn, Ht.
    apply existsb_eqb_In in Hin. cbn [validate_literal validate_str]. rewrite Hin.
    destruct (get "is_primary_key" o) as [x|];
      [destruct (Hpk x eq_refl) as [pk ->]|];
      (destruct (get "is_foreign_key" o) as [y|];
       [destruct (Hfk y eq_refl) as [fk ->]|]);
      eexists; (split; [reflexivity | split; reflexivity]).
  - intros o key e Hkey Hnone.
    unfold validate_Column. rewrite !errors_of_ap, !in_app_iff.
    intros [[[[[]|He%errors_of_required]|He%errors_of_required]
            |[He Hsome]%errors_of_defaulted]|[He Hsome]%errors_of_defaulted];
      rewrite He; intros [= <-]; destruct Hkey as [Hk|Hk];
      try discriminate Hk; contradiction.
Qed.

Lemma omitted_flags_default_to_false_witness :
  validate_Column (column_json "email" "TEXT" [])
  = inr {| col_name := "email"; col_type := "TEXT";
           is_primary_key := false; is_foreign_key := false |}
  /\ is_primary_key {| col_name := "email"; col_type := "TEXT";
                       is_primary_key := false; is_foreign_key := false |} = false.
Proof.
  split; [reflexivity|].
  apply (proj1 (proj1 omitted_flags_default_to_false
                  [("name", JStr "email"); ("type", JStr "TEXT")] _ eq_refl));
    reflexivity.
Defined.

(** ** Running computations: events and outcome of each construct *)

Lemma trace_bind {A B} (m : M A) (k : A -> M B) :
  trace (bind m k)
  = trace m ++ match outcome m with
               | inr a => trace (k a)
               | inl _ => []
               end.
Proof.
  destruct m as [t [e|a]]; simpl; [now rewrite app_nil_r|].
  now destruct (k a).
Qed.

Lemma outcome_bind {A B} (m : M A) (k : A -> M B) :
  outcome (bind m k)
  = match outcome m with
    | inr a => outcome (k a)
    | inl e => inl e
    end.
Proof. destruct m as [t [e|a]]; simpl; [reflexivity|]. now destruct (k a). Qed.

Lemma trace_try_except {A} (m : M A) (h : exn -> M A) :
  trace (try_except m h)
  = trace m ++ match outcome m with
               | inl e => trace (h e)
               | inr _ => []
               end.
Proof.
  destruct m as [t [e|a]]; simpl; [|now rewrite app_nil_r].
  now destruct (h e).
Qed.

Lemma outcome_try_except {A} (m : M A) (h : exn -> M A) :
  outcome (try_except m h)
  = match outcome m with
    | inl e => outcome (h e)
    | inr a => inr a
    end.
Proof. destruct m as [t [e|a]]; simpl; [|reflexivity]. now destruct (h e). Qed.

Lemma invocations_app kind (t1 t2 : list event) :
  invocations kind (t1 ++ t2) = (invocations kind t1 + invocations kind t2)%nat.
Proof. unfold invocations. now rewrite filter_app, length_app. Qed.

Lemma invocations_cons kind (ev : event) (t : list event) :
  invocations kind (ev :: t)
  = ((if kind ev then 1 else 0) + invocations kind t)%nat.
Proof. unfold invocations. simpl. now destruct (kind ev). Qed.

Lemma invocations_nil kind : invocations kind [] = 0%nat.
Proof. reflexivity. Qed.

Lemma trace_pair {A} (t : list event) (r : exn + A) : trace (t, r) = t.
Proof. reflexivity. Qed.

Lemma outcome_pair {A} (t : list event) (r : exn + A) : outcome (t, r) = r.
Proof. reflexivity. Qed.

Section PipelineFacts.
Context {pil : Pillow} {ep : Endpoint} {txt : ExceptionText}.
Variable settings : Settings.

(** One attempt of the structured call: the round trip, then the rest. *)
Lemma create_structured_step max_retries attempt model messages :
  create_structured max_retries attempt model messages
  = (emit (StructuredCall model messages) ;;;
     match complete_json attempt model messages with
     | inl e =>
         match max_retries with
         | O => raise e
         | S retries => create_structured retries (S attempt) model messages
         end
     | inr raw =>
         match model_validate_json raw with
         | inr schema => ret schema
         | inl errors =>
             match max_retries with
             | O => raise (ValidationExhaustion (S attempt) errors)
             | S retries =>
                 create_structured retries (S attempt) model
                   (messages ++
                    [ {| role := "assistant"; content := RawOutput raw |};
                      {| role := "user";
                         content := Feedback (ValidationError "DatabaseSchema" errors) |} ])
             end
         end
     end).
Proof. destruct max_retries; reflexivity. Qed.

Lemma create_structured_events max_retries :
  forall attempt model messages ev,
    In ev (trace (create_structured max_retries attempt model messages)) ->
    exists sent, ev = StructuredCall model sent.
Proof.
  induction max_retries as [|retries IH]; intros attempt model messages ev;
    rewrite create_structured_step, trace_bind; simpl;
    (intros [<-|Hin]; [eauto|]);
    destruct (complete_json attempt model messages) as [e|raw];
    try destruct (model_validate_json raw) as [errors|schema];
    simpl in Hin; try contradiction; eapply IH, Hin.
Qed.

(** The structured call makes at most [max_retries + 1] round trips. *)
Lemma create_structured_bounded max_retries :
  forall attempt model messages,
    (invocations is_structured_call
       (trace (create_structured max_retries attempt model messages))
     <= S max_retries)%nat.
Proof.
  induction max_retries as [|retries IH]; intros attempt model messages;
    rewrite create_structured_step, trace_bind, invocations_app;
    unfold invocations at 1; simpl;
    destruct (complete_json attempt model messages) as [e|raw];
    try destruct (model_validate_json raw) as [errors|schema];
    unfold invocations; simpl; try lia;
    match goal with
    | |- context [create_structured retries ?a ?m ?ms] =>
        specialize (IH a m ms); unfold invocations in IH; lia
    end.
Qed.

(** Against a double whose every output is invalid, it makes exactly
    [max_retries + 1] round trips and ends in the exhaustion failure. *)
Lemma create_structured_exhausts model max_retries :
  (forall attempt messages, exists raw errors,
      complete_json attempt model messages = inr raw
      /\ model_validate_json raw = inl errors) ->
  forall attempt messages,
    invocations is_structured_call
      (trace (create_structured max_retries attempt model messages))
    = S max_retries
    /\ exists errors,
        outcome (create_structured max_retries attempt model messages)
        = inl (ValidationExhaustion (attempt + S max_retries) errors).
Proof.
  intros Hinvalid.
  induction max_retries as [|retries IH]; intros attempt messages;
    rewrite create_structured_step, trace_bind, outcome_bind, invocations_app;
    destruct (Hinvalid attempt messages) as (raw & errors & -> & ->); simpl.
  - split; [reflexivity|]. exists errors. now rewrite Nat.add_1_r.
  - match goal with
    | |- context [create_structured retries ?a model ?ms] =>
        destruct (IH a ms) as (Hcount & errors' & Hout)
    end.
    split.
    + rewrite Hcount. reflexivity.
    + exists errors'. rewrite Hout. f_equal. f_equal. lia.
Qed.

(** Whatever the structured call returns was validated from an output
    of the model. *)
Lemma create_structured_validated max_retries :
  forall attempt model messages schema,
    outcome (create_structured max_retries attempt model messages) = inr schema ->
    exists attempt' sent raw,
      complete_json attempt' model sent = inr raw
      /\ model_validate_json raw = inr schema.
Proof.
  induction max_retries as [|retries IH]; intros attempt model messages schema;
    rewrite create_structured_step, outcome_bind; simpl;
    destruct (complete_json attempt model messages) as [e|raw] eqn:Hcall;
    try destruct (model_validate_json raw) as [errors|valid] eqn:Hvalid;
    simpl; try discriminate;
    try (intros [= <-]; eauto; fail);
    intros Hout; eapply IH, Hout.
Qed.

End PipelineFacts.

(** ** The boundary operation *)

Section Boundary.
Context {pil : Pillow} {ep : Endpoint} {txt : ExceptionText}.
Variable settings : Settings.

#[local] Arguments create_structured : simpl never.

Lemma contains_false (xs : list string) (x : option string) :
  (forall s, In s xs -> x <> Some s) -> contains xs x = false.
Proof.
  destruct x as [s|]; simpl; [|reflexivity].
  intros Hne. destruct (existsb (String.eqb s) xs) eqn:Hmem; [|reflexivity].
  apply existsb_eqb_In in Hmem. now destruct (Hne s Hmem).
Qed.

(** The run of the [try] block, stage by stage. *)
Lemma generate_schema_try_run (file : UploadFile) :
  generate_schema_try settings file
  = match read file with
    | inl e => ([FileRead], inl e)
    | inr content =>
        let data_url := ("data:image/png;base64," ++ base64.b64encode content)%string in
        let stage1 :=
          [ FileRead;
            Log "INFO" "👀 Stage 1: Vision Model analyzing...";
            ChatCall (VISION_MODEL_ID settings) (vision_messages data_url) 2000 ] in
        match complete (VISION_MODEL_ID settings) (vision_messages data_url) 2000 with
        | inl e => (stage1, inl e)
        | inr vision_res =>
            match choices vision_res with
            | [] => (stage1, inl (IndexError "list index out of range"))
            | choice :: _ =>
                let stage2 :=
                  create_structured 2 0 (BRAIN_MODEL_ID settings)
                    (brain_messages (reply choice)) in
                (stage1
                 ++ Log "INFO" "🧠 Stage 2: Instructor validating..."
                 :: trace stage2
                 ++ match outcome stage2 with
                    | inr schema =>
                        [ Log "INFO"
                            ("🎉 Success! Generated "
                             ++ format_nat (length (tables schema))
                             ++ " tables.")%string ]
                    | inl _ => []
                    end,
                 outcome stage2)
            end
        end
    end.
Proof.
  unfold generate_schema_try.
  destruct (read file) as [e|content]; [reflexivity|].
  cbn [emit lift bind app]. rewrite process_image_eq.
  unfold create, logger_info. cbn [emit lift bind app].
  destruct (complete _ _ _) as [e|vision_res]; [reflexivity|].
  cbn [emit lift bind app].
  destruct (choices vision_res) as [|choice rest]; [reflexivity|].
  cbn [getitem0 emit lift bind app].
  destruct (create_structured _ _ _ _) as [t [e|schema]];
    cbn [trace outcome fst snd bind ret emit app]; rewrite ?app_nil_r; reflexivity.
Qed.

Lemma generate_schema_accepted (file : UploadFile) :
  contains ["image/jpeg"; "image/png"; "image/webp"] (content_type file) = true ->
  generate_schema settings file
  = try_except (generate_schema_try settings file)
      (fun e =>
         logger_error ("AI Error: " ++ str e)%string ;;;
         raise (HTTPException 500 ("Processing failed: " ++ str e)%string)).
Proof. intros Hct. unfold generate_schema. now rewrite Hct. Qed.

Lemma generate_schema_rejected (file : UploadFile) :
  contains ["image/jpeg"; "image/png"; "image/webp"] (content_type file) = false ->
  generate_schema settings file = ([], inl (HTTPException 400 "Invalid file type.")).
Proof. intros Hct. unfold generate_schema. now rewrite Hct. Qed.

(** The events of the [try] block, by kind. *)
Lemma generate_schema_try_structured_calls (file : UploadFile) :
  (invocations is_structured_call (trace (generate_schema_try settings file)) <= 3)%nat.
Proof.
  rewrite generate_schema_try_run.
  destruct (read file) as [e|content]; cbn zeta; [unfold invocations; simpl; lia|].
  destruct (complete _ _ _) as [e|vision_res]; [unfold invocations; simpl; lia|].
  destruct (choices vision_res) as [|choice rest]; [unfold invocations; simpl; lia|].
  pose proof (create_structured_bounded 2 0 (BRAIN_MODEL_ID settings)
                (brain_messages (reply choice))) as Hbound.
  unfold trace at 1. cbn [fst app].
  rewrite ?invocations_app, ?invocations_cons, ?invocations_app.
  destruct (outcome (create_structured _ _ _ _));
    rewrite ?invocations_cons, ?invocations_nil; simpl; lia.
Qed.

Lemma handler_trace (e : exn) :
  trace (logger_error ("AI Error: " ++ str e)%string ;;;
         raise (A := DatabaseSchema)
           (HTTPException 500 ("Processing failed: " ++ str e)%string))
  = [Log "ERROR" ("AI Error: " ++ str e)%string].
Proof. reflexivity. Qed.

Lemma handler_outcome (e : exn) :
  outcome (logger_error ("AI Error: " ++ str e)%string ;;;
           raise (A := DatabaseSchema)
             (HTTPException 500 ("Processing failed: " ++ str e)%string))
  = inl (HTTPException 500 ("Processing failed: " ++ str e)%string).
Proof. reflexivity. Qed.

(** The boundary adds at most an error line to the events of the [try]
    block. *)
Lemma generate_schema_trace (file : UploadFile) :
  contains ["image/jpeg"; "image/png"; "image/webp"] (content_type file) = true ->
  trace (generate_schema settings file)
  = trace (generate_schema_try settings file)
    ++ match outcome (generate_schema_try settings file) with
       | inl e => [Log "ERROR" ("AI Error: " ++ str e)%string]
       | inr _ => []
       end.
Proof.
  intros Hct. rewrite (generate_schema_accepted _ Hct), trace_try_except.
  destruct (outcome (generate_schema_try settings file)); [|reflexivity].
  now rewrite handler_trace.
Qed.

Lemma generate_schema_outcome (file : UploadFile) :
  contains ["image/jpeg"; "image/png"; "image/webp"] (content_type file) = true ->
  outcome (generate_schema settings file)
  = match outcome (generate_schema_try settings file) with
    | inl e => inl (HTTPException 500 ("Processing failed: " ++ str e)%string)
    | inr schema => inr schema
    end.
Proof.
  intros Hct. rewrite (generate_schema_accepted _ Hct), outcome_try_except.
  destruct (outcome (generate_schema_try settings file)); [|reflexivity].
  now rewrite handler_outcome.
Qed.

End Boundary.

(** C5.  An upload whose content type is none of [image/jpeg],
    [image/png], [image/webp] is answered with the client error 400 and
    nothing else happens: the file is not read, and neither the vision call
    nor the extraction call is made. *)
Theorem wrong_content_type_rejected_before_pipeline
    `{pil : Pillow} `{ep : Endpoint} `{txt : ExceptionText}
    (settings : Settings) (file : UploadFile) :
  content_type file <> Some "image/jpeg" ->
  content_type file <> Some "image/png" ->
  content_type file <> Some "image/webp" ->
  generate_schema settings file = ([], inl (HTTPException 400 "Invalid file type."))
  /\ (exists code detail,
        outcome (generate_schema settings file) = inl (HTTPException code detail)
        /\ (400 <= code < 500)%Z)
  /\ invocations is_file_read (trace (generate_schema settings file)) = 0%nat
  /\ invocations is_chat_call (trace (generate_schema settings file)) = 0%nat
  /\ invocations is_structured_call (trace (generate_schema settings file)) = 0%nat.
Proof.
  intros Hjpeg Hpng Hwebp.
  assert (generate_schema settings file
          = ([], inl (HTTPException 400 "Invalid file type."))) as ->.
  { apply generate_schema_rejected, contains_false.
    intros s [<-|[<-|[<-|[]]]]; assumption. }
  repeat split. exists 400%Z, "Invalid file type.". split; [reflexivity | lia].
Qed.

Lemma wrong_content_type_rejected_before_pipeline_witness :
  generate_schema (pil := raw_codec) (ep := good_double) (txt := plain_text)
    default_settings text_upload
  = ([], inl (HTTPException 400 "Invalid file type.")).
Proof.
  apply (wrong_content_type_rejected_before_pipeline
           (pil := raw_codec) (ep := good_double) (txt := plain_text)
           default_settings text_upload); discriminate.
Defined.

(** The messages of every vision call of a request, and that an accepted
    readable upload makes it. *)
Lemma vision_call_messages
    `{pil : Pillow} `{ep : Endpoint} `{txt : ExceptionText}
    (settings : Settings) (file : UploadFile) :
  (forall model sent max_tokens,
      In (ChatCall model sent max_tokens) (trace (generate_schema settings file)) ->
      exists content,
        read file = inr content
        /\ sent = vision_messages
                    ("data:image/png;base64," ++ base64.b64encode content)%string)
  /\ (forall content,
        contains ["image/jpeg"; "image/png"; "image/webp"] (content_type file) = true ->
        read file = inr content ->
        In (ChatCall (VISION_MODEL_ID settings)
              (vision_messages
                 ("data:image/png;base64," ++ base64.b64encode content)%string)
              2000)
           (trace (generate_schema settings file))).
Proof.
  split.
  - intros model sent max_tokens.
    destruct (contains ["image/jpeg"; "image/png"; "image/webp"] (content_type file))
      eqn:Hct; [|now rewrite (generate_schema_rejected _ _ Hct)].
    rewrite (generate_schema_trace _ _ Hct), in_app_iff.
    intros [Hin|Hin];
      [|destruct (outcome (generate_schema_try settings file));
        simpl in Hin; intuition discriminate].
    rewrite generate_schema_try_run in Hin.
    destruct (read file) as [e|content]; [simpl in Hin; intuition discriminate|].
    exists content. split; [reflexivity|].
    cbn zeta in Hin.
    assert (forall url,
               In (ChatCall model sent max_tokens)
                  [ FileRead;
                    Log "INFO" "👀 Stage 1: Vision Model analyzing...";
                    ChatCall (VISION_MODEL_ID settings) (vision_messages url) 2000 ] ->
               sent = vision_messages url) as Hstage1.
    { intros url [H|[H|[H|[]]]]; try discriminate H. now injection H as _ <- _. }
    destruct (complete _ _ _) as [e|vision_res]; [apply Hstage1, Hin|].
    destruct (choices vision_res) as [|choice rest]; [apply Hstage1, Hin|].
    unfold trace at 1 in Hin. cbn [fst] in Hin.
    rewrite in_app_iff in Hin. destruct Hin as [Hin|[Hin|Hin]];
      [apply Hstage1, Hin | discriminate Hin |].
    rewrite in_app_iff in Hin. destruct Hin as [Hin|Hin].
    + apply create_structured_events in Hin as [sent' Hin]. discriminate Hin.
    + destruct (outcome (create_structured _ _ _ _));
        simpl in Hin; intuition discriminate.
  - intros content Hct Hread.
    rewrite (generate_schema_trace _ _ Hct), in_app_iff. left.
    rewrite generate_schema_try_run, Hread. cbn zeta.
    destruct (complete _ _ _) as [e|vision_res]; [simpl; auto|].
    destruct (choices vision_res) as [|choice rest]; [simpl; auto|].
    unfold trace at 1. cbn [fst]. rewrite in_app_iff. left. simpl. auto.
Qed.

(** C9.  Every vision call of a request carries one user message of two
    parts, the instruction and an image URL, and that URL is
    ["data:image/png;base64,"] followed by the base64 encoding of the bytes
    exactly as uploaded: it declares [image/png] whatever the content type
    of the upload was.  Every accepted upload that can be read leads to
    that call. *)
Theorem data_url_always_declares_png
    `{pil : Pillow} `{ep : Endpoint} `{txt : ExceptionText}
    (settings : Settings) (file : UploadFile) :
  (forall model sent max_tokens,
      In (ChatCall model sent max_tokens) (trace (generate_schema settings file)) ->
      exists uploaded,
        read file = inr uploaded
        /\ sent
           = [ {| role := "user";
                  content := Parts
                    [ TextPart "List all tables, columns (with inferred types), and relationships in this ER diagram.";
                      ImageUrlPart
                        ("data:image/png;base64," ++ base64.b64encode uploaded)%string ] |} ])
  /\ (forall uploaded,
        contains ["image/jpeg"; "image/png"; "image/webp"] (content_type file) = true ->
        read file = inr uploaded ->
        In (ChatCall (VISION_MODEL_ID settings)
              [ {| role := "user";
                   content := Parts
                     [ TextPart "List all tables, columns (with inferred types), and relationships in this ER diagram.";
                       ImageUrlPart
                         ("data:image/png;base64," ++ base64.b64encode uploaded)%string ] |} ]
              2000)
           (trace (generate_schema settings file))).
Proof. exact (vision_call_messages settings file). Qed.

Lemma data_url_always_declares_png_witness :
  In (ChatCall "Qwen/Qwen2.5-VL-7B-Instruct"
        [ {| role := "user";
             content := Parts
               [ TextPart "List all tables, columns (with inferred types), and relationships in this ER diagram.";
                 ImageUrlPart "data:image/png;base64,3g==" ] |} ]
        2000)
     (trace (generate_schema (pil := raw_codec) (ep := good_double)
               (txt := plain_text) default_settings jpeg_upload)).
Proof.
  apply (proj2 (data_url_always_declares_png
                  (pil := raw_codec) (ep := good_double) (txt := plain_text)
                  default_settings jpeg_upload) not_an_image);
    reflexivity.
Defined.

(** C6.  Whatever exception ends the pipeline of an accepted upload -- a
    failed read or vision call, a failed extraction call, validation
    exhaustion -- the boundary answers with status 500 and the message
    ["Processing failed: "] followed by the text of the cause; a schema that
    is returned was validated in full from an output of the extraction
    model; and these, with the 400 of a refused upload, are the only
    answers. *)
Theorem pipeline_failures_become_server_errors
    `{pil : Pillow} `{ep : Endpoint} `{txt : ExceptionText}
    (settings : Settings) (file : UploadFile) :
  (forall e,
      contains ["image/jpeg"; "image/png"; "image/webp"] (content_type file) = true ->
      outcome (generate_schema_try settings file) = inl e ->
      outcome (generate_schema settings file)
      = inl (HTTPException 500 ("Processing failed: " ++ str e)%string))
  /\ (forall schema,
        outcome (generate_schema settings file) = inr schema ->
        exists attempt sent raw,
          complete_json attempt (BRAIN_MODEL_ID settings) sent = inr raw
          /\ model_validate_json raw = inr schema)
  /\ ((exists schema, outcome (generate_schema settings file) = inr schema)
      \/ outcome (generate_schema settings file)
         = inl (HTTPException 400 "Invalid file type.")
      \/ (exists e, outcome (generate_schema settings file)
                    = inl (HTTPException 500 ("Processing failed: " ++ str e)%string))).
Proof.
  split; [|split].
  - intros e Hct Hfail. now rewrite (generate_schema_outcome _ _ Hct), Hfail.
  - intros schema.
    destruct (contains ["image/jpeg"; "image/png"; "image/webp"] (content_type file))
      eqn:Hct; [|now rewrite (generate_schema_rejected _ _ Hct)].
    rewrite (generate_schema_outcome _ _ Hct).
    destruct (outcome (generate_schema_try settings file)) as [e|valid] eqn:Htry;
      [discriminate|].
    intros [= <-]. rewrite generate_schema_try_run in Htry.
    destruct (read file) as [e|content]; [discriminate Htry|].
    cbn zeta in Htry.
    destruct (complete _ _ _) as [e|vision_res]; [discriminate Htry|].
    destruct (choices vision_res) as [|choice rest]; [discriminate Htry|].
    eapply create_structured_validated, Htry.
  - destruct (contains ["image/jpeg"; "image/png"; "image/webp"] (content_type file))
      eqn:Hct.
    + rewrite (generate_schema_outcome _ _ Hct).
      destruct (outcome (generate_schema_try settings file)) as [e|valid]; eauto.
    + rewrite (generate_schema_rejected _ _ Hct). auto.
Qed.

Lemma pipeline_failures_become_server_errors_witness :
  outcome (generate_schema (pil := raw_codec) (ep := failing_vision_double)
             (txt := plain_text) default_settings png_upload)
  = inl (HTTPException 500 "Processing failed: Connection error.").
Proof.
  apply (proj1 (pipeline_failures_become_server_errors
                  (pil := raw_codec) (ep := failing_vision_double)
                  (txt := plain_text) default_settings png_upload)
           (LibraryError "APIConnectionError" "Connection error."));
    reflexivity.
Defined.

(** The end-to-end scenario of the design document: two tables, [users]
    with a primary-key [UUID] column [id], and one [1:N] relationship from
    [orders.user_id] to [users.id]. *)
Lemma users_orders_end_to_end :
  outcome (generate_schema (pil := raw_codec) (ep := good_double)
             (txt := plain_text) default_settings png_upload)
  = inr users_orders_schema.
Proof. reflexivity. Qed.

(** C1.  A request makes at most 3 attempts at the structured-generation
    stage; against an extraction double that always returns an invalid
    shape it makes exactly 3, and the request then ends -- the run is a
    total function -- in the 500 answer whose cause is the validation
    exhaustion after 3 attempts. *)
Theorem structured_generation_makes_at_most_three_attempts
    `{pil : Pillow} `{ep : Endpoint} `{txt : ExceptionText}
    (settings : Settings) (file : UploadFile) :
  (invocations is_structured_call (trace (generate_schema settings file)) <= 3)%nat
  /\ (contains ["image/jpeg"; "image/png"; "image/webp"] (content_type file) = true ->
      (exists content, read file = inr content) ->
      (forall model sent max_tokens, exists vision_res choice rest,
          complete model sent max_tokens = inr vision_res
          /\ choices vision_res = choice :: rest) ->
      (forall attempt sent, exists raw errors,
          complete_json attempt (BRAIN_MODEL_ID settings) sent = inr raw
          /\ model_validate_json raw = inl errors) ->
      invocations is_structured_call (trace (generate_schema settings file)) = 3%nat
      /\ exists errors,
          outcome (generate_schema settings file)
          = inl (HTTPException 500
                   ("Processing failed: " ++ str (ValidationExhaustion 3 errors))%string)).
Proof.
  split.
  - destruct (contains ["image/jpeg"; "image/png"; "image/webp"] (content_type file))
      eqn:Hct.
    + rewrite (generate_schema_trace _ _ Hct), invocations_app.
      pose proof (generate_schema_try_structured_calls settings file) as Hbound.
      destruct (outcome (generate_schema_try settings file));
        rewrite ?invocations_cons, ?invocations_nil; simpl; lia.
    + rewrite (generate_schema_rejected _ _ Hct). apply Nat.le_0_l.
  - intros Hct [content Hread] Hvision Hinvalid.
    rewrite (generate_schema_trace _ _ Hct), (generate_schema_outcome _ _ Hct),
      invocations_app, generate_schema_try_run, Hread.
    cbn zeta.
    destruct (Hvision (VISION_MODEL_ID settings)
                (vision_messages
                   ("data:image/png;base64," ++ base64.b64encode content)%string)
                2000%Z) as (vision_res & choice & rest & -> & ->).
    destruct (create_structured_exhausts (BRAIN_MODEL_ID settings) 2 Hinvalid
                0%nat (brain_messages (reply choice))) as (Hcount & errors & Hout).
    rewrite trace_pair, !outcome_pair, Hout.
    rewrite ?invocations_app, ?invocations_cons, ?invocations_app, ?invocations_cons,
      ?invocations_nil, Hcount.
    split; [reflexivity | eauto].
Qed.

Lemma structured_generation_makes_at_most_three_attempts_witness :
  invocations is_structured_call
    (trace (generate_schema (pil := raw_codec) (ep := invalid_double)
              (txt := plain_text) default_settings png_upload)) = 3%nat
  /\ exists errors,
      outcome (generate_schema (pil := raw_codec) (ep := invalid_double)
                 (txt := plain_text) default_settings png_upload)
      = inl (HTTPException 500
               ("Processing failed: "
                ++ str (ExceptionText := plain_text)
                     (ValidationExhaustion 3 errors))%string).
Proof.
  apply (proj2 (structured_generation_makes_at_most_three_attempts
                  (pil := raw_codec) (ep := invalid_double) (txt := plain_text)
                  default_settings png_upload)).
  - reflexivity.
  - exists white_pixel. reflexivity.
  - intros model sent max_tokens.
    exists described, {| reply := Some users_orders_description |}, [].
    split; reflexivity.
  - intros attempt sent.
    exists (Some float_column_json),
      [{| loc := [Key "tables"; Idx 0; Key "columns"; Idx 0; Key "type"];
          err_type := "literal_error" |}].
    split; reflexivity.
Defined.

(** What the caller sees after the three invalid outputs. *)
Lemma invalid_double_answer :
  outcome (generate_schema (pil := raw_codec) (ep := invalid_double)
             (txt := plain_text) default_settings png_upload)
  = inl (HTTPException 500
           "Processing failed: 1 validation errors after 3 attempts").
Proof. reflexivity. Qed.

(** * Further properties of the validation contract *)

Lemma validate_items_complete {A} (validate : json -> vresult A) items out :
  Forall2 (fun x a => validate x = inr a) items out ->
  forall i, validate_items validate i items = inr out.
Proof.
  induction 1 as [|x a items out Hx _ IH]; intros i; simpl; [reflexivity|].
  rewrite Hx, IH. reflexivity.
Qed.

Lemma validate_Table_name (v : json) (T : Table) :
  validate_Table v = inr T ->
  get "name" (members_of v) = Some (JStr (tbl_name T)).
Proof.
  destruct v as [| | | | |o]; simpl; try discriminate.
  intros (g2 & cols & (g1 & nm & [= <-] & Hnm & ->)%ap_inr & _ & ->)%ap_inr.
  now apply required_inr in Hnm as (vn & Hgn & ->%validate_str_inr).
Qed.

Lemma validate_Table_complete o cs (T : Table) :
  get "name" o = Some (JStr (tbl_name T)) ->
  get "columns" o = Some (JArr cs) ->
  Forall2 (fun x c => validate_Column x = inr c) cs (columns T) ->
  validate_Table (JObj o) = inr T.
Proof.
  intros Hname Hcols Hall.
  unfold validate_Table, required. rewrite Hname, Hcols.
  cbn [validate_str validate_list at_loc].
  rewrite (validate_items_complete _ _ _ Hall). now destruct T.
Qed.

Lemma validate_DatabaseSchema_complete o ts rs (schema : DatabaseSchema) :
  get "tables" o = Some (JArr ts) ->
  get "relationships" o = Some (JArr rs) ->
  Forall2 (fun x T => validate_Table x = inr T) ts (tables schema) ->
  Forall2 (fun x r => validate_Relationship x = inr r) rs (relationships schema) ->
  validate_DatabaseSchema (JObj o) = inr schema.
Proof.
  intros Hts Hrs Htables Hrels.
  unfold validate_DatabaseSchema, required. rewrite Hts, Hrs.
  cbn [validate_list at_loc].
  rewrite (validate_items_complete _ _ _ Htables),
    (validate_items_complete _ _ _ Hrels).
  now destruct schema.
Qed.

(** X1.  Validation goes item by item and keeps the order: an output is
    accepted as [schema] exactly when it is an object whose [tables] and
    [relationships] members are arrays and the i-th table (relationship) of
    [schema] is the validation of the i-th item; a table likewise for its
    name and its columns.  Nothing relates one item to another. *)
Theorem validation_is_itemwise (v : json) (schema : DatabaseSchema) :
  (validate_DatabaseSchema v = inr schema
   <-> exists o ts rs,
         v = JObj o
         /\ get "tables" o = Some (JArr ts)
         /\ get "relationships" o = Some (JArr rs)
         /\ Forall2 (fun x T => validate_Table x = inr T) ts (tables schema)
         /\ Forall2 (fun x r => validate_Relationship x = inr r) rs
                    (relationships schema))
  /\ (forall t T,
        validate_Table t = inr T
        <-> exists o cs,
              t = JObj o
              /\ get "name" o = Some (JStr (tbl_name T))
              /\ get "columns" o = Some (JArr cs)
              /\ Forall2 (fun x c => validate_Column x = inr c) cs (columns T)).
Proof.
  split; [split|intros t T; split].
  - apply validate_DatabaseSchema_inr.
  - intros (o & ts & rs & -> & Hts & Hrs & Htables & Hrels).
    now apply validate_DatabaseSchema_complete with (ts := ts) (rs := rs).
  - intros Hok. pose proof (validate_Table_name _ _ Hok) as Hname.
    apply validate_Table_inr in Hok as (o & cs & -> & Hcs & Hcols).
    exists o, cs. auto.
  - intros (o & cs & -> & Hname & Hcs & Hcols).
    now apply validate_Table_complete with (cs := cs).
Qed.

Lemma validation_is_itemwise_witness :
  Forall2 (fun x T => validate_Table x = inr T)
          (json_tables users_orders_json) (tables users_orders_schema).
Proof.
  destruct (proj1 (proj1 (validation_is_itemwise users_orders_json
                             users_orders_schema)) eq_refl)
    as (o & ts & rs & Hv & Hts & _ & Htables & _).
  injection Hv as <-. injection Hts as <-. exact Htables.
Defined.

(** X2.  The references of a relationship are free text: beside any
    tables that validate, a relationship is accepted whatever table and
    column names it gives, whether or not such tables and columns exist. *)
Theorem relationship_references_are_not_checked
    (ts : list json) (Ts : list Table) (ft fc tt tc : string) :
  Forall2 (fun x T => validate_Table x = inr T) ts Ts ->
  validate_DatabaseSchema
    (JObj [ ("tables", JArr ts);
            ("relationships", JArr
               [ JObj [ ("from_table", JStr ft); ("from_column", JStr fc);
                        ("to_table", JStr tt); ("to_column", JStr tc) ] ]) ])
  = inr {| tables := Ts;
           relationships :=
             [ {| from_table := ft; from_column := fc;
                  to_table := tt; to_column := tc; rel_type := "1:N" |} ] |}.
Proof.
  intros Htables.
  eapply validate_DatabaseSchema_complete;
    [reflexivity | reflexivity | exact Htables |].
  repeat constructor.
Qed.

Lemma relationship_references_are_not_checked_witness :
  validate_DatabaseSchema
    (JObj [ ("tables", JArr []);
            ("relationships", JArr
               [ JObj [ ("from_table", JStr "ghost"); ("from_column", JStr "x");
                        ("to_table", JStr "nowhere"); ("to_column", JStr "y") ] ]) ])
  = inr {| tables := [];
           relationships :=
             [ {| from_table := "ghost"; from_column := "x";
                  to_table := "nowhere"; to_column := "y"; rel_type := "1:N" |} ] |}.
Proof.
  apply (relationship_references_are_not_checked [] [] "ghost" "x" "nowhere" "y").
  constructor.
Defined.

(** X3.  Only the declared members of an object count: two objects that
    agree on the declared keys of a model validate alike, so members under
    any other key are ignored. *)
Theorem undeclared_members_are_ignored (o1 o2 : list (string * json)) :
  ((forall key, In key ["name"; "type"; "is_primary_key"; "is_foreign_key"] ->
                get key o1 = get key o2) ->
   validate_Column (JObj o1) = validate_Column (JObj o2))
  /\ ((forall key, In key ["name"; "columns"] -> get key o1 = get key o2) ->
      validate_Table (JObj o1) = validate_Table (JObj o2))
  /\ ((forall key, In key ["from_table"; "from_column"; "to_table"; "to_column"; "type"] ->
                   get key o1 = get key o2) ->
      validate_Relationship (JObj o1) = validate_Relationship (JObj o2))
  /\ ((forall key, In key ["tables"; "relationships"] -> get key o1 = get key o2) ->
      validate_DatabaseSchema (JObj o1) = validate_DatabaseSchema (JObj o2)).
Proof.
  repeat split; intros Hsame;
    unfold validate_Column, validate_Table, validate_Relationship,
      validate_DatabaseSchema, required, defaulted;
    rewrite ?(Hsame "name"), ?(Hsame "type"), ?(Hsame "is_primary_key"),
      ?(Hsame "is_foreign_key"), ?(Hsame "columns"), ?(Hsame "from_table"),
      ?(Hsame "from_column"), ?(Hsame "to_table"), ?(Hsame "to_column"),
      ?(Hsame "tables"), ?(Hsame "relationships") by (simpl; tauto);
    reflexivity.
Qed.

Lemma undeclared_members_are_ignored_witness :
  validate_Column
    (JObj [ ("comment", JStr "guessed"); ("name", JStr "email");
            ("type", JStr "TEXT"); ("nullable", JBool true) ])
  = validate_Column (column_json "email" "TEXT" []).
Proof.
  apply (proj1 (undeclared_members_are_ignored _ _)).
  intros key [<-|[<-|[<-|[<-|[]]]]]; reflexivity.
Defined.

Lemma in_errors_inl {A} (r : vresult A) (e : ErrorDetails) :
  In e (errors_of r) -> exists errors, r = inl errors /\ In e errors.
Proof. destruct r as [es|a]; simpl; [eauto | tauto]. Qed.

Lemma errors_of_required_missing {A} o key (validate : json -> vresult A) :
  get key o = None ->
  In {| loc := [Key key]; err_type := "missing" |}
     (errors_of (required o key validate)).
Proof. intros Hnone. unfold required. rewrite Hnone. simpl. auto. Qed.

(** X4.  A member declared without a default must be there: an object
    that lacks one is rejected, and among the errors is a ["missing"] one
    at that key.  So it is for the name and type of a column, the name and
    columns of a table, the four references of a relationship and the two
    lists of a schema. *)
Theorem missing_required_member_is_an_error (o : list (string * json))
    (key : string) :
  get key o = None ->
  (In key ["name"; "type"] ->
   exists errors, validate_Column (JObj o) = inl errors
     /\ In {| loc := [Key key]; err_type := "missing" |} errors)
  /\ (In key ["name"; "columns"] ->
      exists errors, validate_Table (JObj o) = inl errors
        /\ In {| loc := [Key key]; err_type := "missing" |} errors)
  /\ (In key ["from_table"; "from_column"; "to_table"; "to_column"] ->
      exists errors, validate_Relationship (JObj o) = inl errors
        /\ In {| loc := [Key key]; err_type := "missing" |} errors)
  /\ (In key ["tables"; "relationships"] ->
      exists errors, validate_DatabaseSchema (JObj o) = inl errors
        /\ In {| loc := [Key key]; err_type := "missing" |} errors).
Proof.
  intros Hnone.
  repeat split; intros Hkey; apply in_errors_inl;
    unfold validate_Column, validate_Table, validate_Relationship,
      validate_DatabaseSchema;
    rewrite !errors_of_ap, !in_app_iff;
    simpl in Hkey; repeat destruct Hkey as [<-|Hkey]; try contradiction;
    match type of Hnone with
    | get ?k o = None =>
        match goal with
        | |- context [required o k ?f] =>
            pose proof (errors_of_required_missing o k f Hnone)
        end
    end; tauto.
Qed.

Lemma missing_required_member_is_an_error_witness :
  exists errors,
    validate_Column (JObj [("name", JStr "price")]) = inl errors
    /\ In {| loc := [Key "type"]; err_type := "missing" |} errors.
Proof.
  apply (proj1 (missing_required_member_is_an_error
                  [("name", JStr "price")] "type" eq_refl)).
  simpl. auto.
Defined.

Lemma validate_dump_Column (c : Column) :
  In (col_type c) SQLiteType ->
  validate_Column (model_dump_Column c) = inr c.
Proof.
  intros Hin%existsb_eqb_In. unfold validate_Column, model_dump_Column.
  unfold required, defaulted. cbn [get String.eqb Ascii.eqb Bool.eqb].
  cbn [validate_str validate_bool validate_literal]. rewrite Hin.
  now destruct c.
Qed.

Lemma validate_dump_Relationship (r : Relationship) :
  In (rel_type r) RelationshipType ->
  validate_Relationship (model_dump_Relationship r) = inr r.
Proof.
  intros Hin%existsb_eqb_In. unfold validate_Relationship, model_dump_Relationship.
  unfold required, defaulted. cbn [get String.eqb Ascii.eqb Bool.eqb].
  cbn [validate_str validate_literal]. rewrite Hin.
  now destruct r.
Qed.

Lemma Forall2_dump {A} (validate : json -> vresult A) (dump : A -> json)
    (xs : list A) :
  (forall x, In x xs -> validate (dump x) = inr x) ->
  Forall2 (fun v a => validate v = inr a) (map dump xs) xs.
Proof.
  induction xs as [|x xs IH]; intros Hall; simpl; constructor.
  - apply Hall. simpl. auto.
  - apply IH. intros y Hy. apply Hall. simpl. auto.
Qed.

Lemma validate_dump_Table (T : Table) :
  (forall c, In c (columns T) -> In (col_type c) SQLiteType) ->
  validate_Table (model_dump_Table T) = inr T.
Proof.
  intros Hall.
  apply validate_Table_complete with (cs := map model_dump_Column (columns T));
    [reflexivity | reflexivity |].
  apply Forall2_dump. intros c Hc. apply validate_dump_Column, Hall, Hc.
Qed.

Lemma validate_dump (schema : DatabaseSchema) :
  (forall T c, In T (tables schema) -> In c (columns T) ->
               In (col_type c) SQLiteType) ->
  (forall r, In r (relationships schema) -> In (rel_type r) RelationshipType) ->
  validate_DatabaseSchema (model_dump schema) = inr schema.
Proof.
  intros Hcols Hrels.
  apply validate_DatabaseSchema_complete
    with (ts := map model_dump_Table (tables schema))
         (rs := map model_dump_Relationship (relationships schema));
    [reflexivity | reflexivity | |].
  - apply Forall2_dump. intros T HT. apply validate_dump_Table. eauto.
  - apply Forall2_dump. intros r Hr. apply validate_dump_Relationship. eauto.
Qed.

(** X5.  The response round-trips: a schema whose types are among the
    literals validates, once dumped, to itself; so whatever validation
    accepted is accepted again, unchanged, when read back from the
    response. *)
Theorem response_validates_to_the_same_schema :
  (forall schema,
      (forall T c, In T (tables schema) -> In c (columns T) ->
                   In (col_type c) SQLiteType) ->
      (forall r, In r (relationships schema) -> In (rel_type r) RelationshipType) ->
      validate_DatabaseSchema (model_dump schema) = inr schema)
  /\ (forall v schema,
        validate_DatabaseSchema v = inr schema ->
        validate_DatabaseSchema (model_dump schema) = inr schema).
Proof.
  split; [apply validate_dump|].
  intros v schema Hok. apply validate_dump.
  - eapply schema_column_types, Hok.
  - eapply schema_relationship_types, Hok.
Qed.

Lemma response_validates_to_the_same_schema_witness :
  validate_DatabaseSchema (model_dump users_orders_schema) = inr users_orders_schema.
Proof.
  apply (proj2 response_validates_to_the_same_schema users_orders_json).
  reflexivity.
Defined.

(** * Further properties of the boundary operation *)

Lemma invocations_none kind (t : list event) :
  (forall ev, In ev t -> kind ev = false) -> invocations kind t = 0%nat.
Proof.
  induction t as [|ev t IH]; intros Hall; [reflexivity|].
  rewrite invocations_cons, (Hall ev), IH; simpl; auto.
  intros ev' Hin. apply Hall. simpl. auto.
Qed.

Lemma In_firstn {A} (n : nat) (l : list A) (x : A) :
  In x (firstn n l) -> In x l.
Proof.
  revert l. induction n as [|n IH]; intros [|y l]; simpl; try tauto.
  intros [->|Hin]; auto.
Qed.

Section Runs.
Context {pil : Pillow} {ep : Endpoint} {txt : ExceptionText}.
Variable settings : Settings.

(** The first event of a structured call is its round trip with the
    messages as given. *)
Lemma create_structured_head max_retries attempt model messages :
  exists rest,
    trace (create_structured max_retries attempt model messages)
    = StructuredCall model messages :: rest.
Proof. rewrite create_structured_step, trace_bind. simpl. eauto. Qed.

(** The whole run of an accepted upload. *)
Lemma generate_schema_run (file : UploadFile) :
  contains ACCEPTED (content_type file) = true ->
  generate_schema settings file
  = match read file with
    | inl e => ([FileRead; error_line e], inl (server_error e))
    | inr content =>
        match complete (VISION_MODEL_ID settings)
                (vision_messages (data_url (base64.b64encode content))) 2000 with
        | inl e =>
            (stage1_events settings content ++ [error_line e], inl (server_error e))
        | inr vision_res =>
            match choices vision_res with
            | [] =>
                (stage1_events settings content
                 ++ [error_line (IndexError "list index out of range")],
                 inl (server_error (IndexError "list index out of range")))
            | choice :: _ =>
                let stage2 :=
                  create_structured 2 0 (BRAIN_MODEL_ID settings)
                    (brain_messages (reply choice)) in
                (stage1_events settings content
                 ++ stage2_line
                 :: trace stage2
                 ++ [ match outcome stage2 with
                      | inr schema => success_line schema
                      | inl e => error_line e
                      end ],
                 match outcome stage2 with
                 | inr schema => inr schema
                 | inl e => inl (server_error e)
                 end)
            end
        end
    end.
Proof.
  intros Hct.
  rewrite (surjective_pairing (generate_schema settings file)).
  change (fst (generate_schema settings file))
    with (trace (generate_schema settings file)).
  change (snd (generate_schema settings file))
    with (outcome (generate_schema settings file)).
  rewrite (generate_schema_trace _ _ Hct), (generate_schema_outcome _ _ Hct),
    generate_schema_try_run.
  destruct (read file) as [e|content]; [reflexivity|].
  cbn zeta. fold (data_url (base64.b64encode content)).
  destruct (complete _ _ _) as [e|vision_res]; [reflexivity|].
  destruct (choices vision_res) as [|choice rest]; [reflexivity|].
  rewrite trace_pair, outcome_pair.
  destruct (outcome (create_structured _ _ _ _)) as [e|schema];
    unfold stage1_events, data_url, stage2_line, success_line;
    cbn [app]; rewrite <- ?app_assoc, ?app_nil_r; reflexivity.
Qed.

(** A schema that [generate_schema] returns was validated from an output
    of the extraction model. *)
Lemma generate_schema_returns_validated (file : UploadFile)
    (schema : DatabaseSchema) :
  outcome (generate_schema settings file) = inr schema ->
  exists attempt sent raw,
    complete_json attempt (BRAIN_MODEL_ID settings) sent = inr raw
    /\ model_validate_json raw = inr schema.
Proof.
  destruct (contains ACCEPTED (content_type file)) eqn:Hct;
    [|now rewrite (generate_schema_rejected _ _ Hct)].
  rewrite (generate_schema_run _ Hct).
  destruct (read file) as [e|content]; [discriminate|].
  destruct (complete _ _ _) as [e|vision_res]; [discriminate|].
  destruct (choices vision_res) as [|choice rest]; [discriminate|].
  cbn zeta. rewrite outcome_pair.
  destruct (outcome (create_structured _ _ _ _)) as [e|valid] eqn:Hout;
    [discriminate|].
  intros [= <-]. eapply create_structured_validated, Hout.
Qed.

End Runs.

Lemma contains_true (xs : list string) (x : option string) :
  contains xs x = true -> exists s, x = Some s /\ In s xs.
Proof.
  destruct x as [s|]; simpl; [|discriminate].
  intros Hmem%existsb_eqb_In. eauto.
Qed.

(** X6.  A failure before stage 2 ends the request at once, with the 500
    answer and one error line for its cause, and the extraction model is
    not called: after a failed read nothing is called at all; after a
    failed vision call, or a completion without any choice (an
    [IndexError]), only the vision call was made. *)
Theorem failures_before_extraction
    `{pil : Pillow} `{ep : Endpoint} `{txt : ExceptionText}
    (settings : Settings) (file : UploadFile) :
  contains ACCEPTED (content_type file) = true ->
  (forall e,
      read file = inl e ->
      generate_schema settings file
      = ([FileRead; error_line e], inl (server_error e)))
  /\ (forall content e,
        read file = inr content ->
        complete (VISION_MODEL_ID settings)
          (vision_messages (data_url (base64.b64encode content))) 2000 = inl e ->
        generate_schema settings file
        = (stage1_events settings content ++ [error_line e],
           inl (server_error e)))
  /\ (forall content vision_res,
        read file = inr content ->
        complete (VISION_MODEL_ID settings)
          (vision_messages (data_url (base64.b64encode content))) 2000
        = inr vision_res ->
        choices vision_res = [] ->
        generate_schema settings file
        = (stage1_events settings content
           ++ [error_line (IndexError "list index out of range")],
           inl (server_error (IndexError "list index out of range")))).
Proof.
  intros Hct. rewrite (generate_schema_run _ _ Hct).
  split; [|split].
  - now intros e ->.
  - now intros content e -> ->.
  - now intros content vision_res -> -> ->.
Qed.

Lemma failures_before_extraction_witness :
  generate_schema (pil := raw_codec) (ep := good_double) (txt := plain_text)
    default_settings unreadable_upload
  = ([FileRead; Log "ERROR" "AI Error: read of closed file"],
     inl (HTTPException 500 "Processing failed: read of closed file"))
  /\ outcome (generate_schema (pil := raw_codec) (ep := empty_vision_double)
                (txt := plain_text) default_settings png_upload)
     = inl (HTTPException 500 "Processing failed: list index out of range").
Proof.
  split.
  - apply (proj1 (failures_before_extraction
                    (pil := raw_codec) (ep := good_double) (txt := plain_text)
                    default_settings unreadable_upload eq_refl)
             (LibraryError "OSError" "read of closed file")).
    reflexivity.
  - rewrite (proj2 (proj2 (failures_before_extraction
               (pil := raw_codec) (ep := empty_vision_double) (txt := plain_text)
               default_settings png_upload eq_refl))
               white_pixel {| choices := [] |} eq_refl eq_refl eq_refl).
    reflexivity.
Defined.

(** X7.  [generate_schema] reads the upload once if its content type is
    accepted and never otherwise, and invokes [create] for the vision stage
    once if that read succeeded and never otherwise: it has no loop of its
    own around either.  Requests that the HTTP client resends inside that
    one invocation are not counted. *)
Theorem upload_read_and_vision_call_happen_once
    `{pil : Pillow} `{ep : Endpoint} `{txt : ExceptionText}
    (settings : Settings) (file : UploadFile) :
  invocations is_file_read (trace (generate_schema settings file))
  = (if contains ACCEPTED (content_type file) then 1 else 0)%nat
  /\ invocations is_chat_call (trace (generate_schema settings file))
     = (if contains ACCEPTED (content_type file)
        then match read file with inr _ => 1 | inl _ => 0 end
        else 0)%nat.
Proof.
  destruct (contains ACCEPTED (content_type file)) eqn:Hct;
    [|now rewrite (generate_schema_rejected _ _ Hct)].
  rewrite (generate_schema_run _ _ Hct).
  destruct (read file) as [e|content]; [split; reflexivity|].
  destruct (complete _ _ _) as [e|vision_res]; [split; reflexivity|].
  destruct (choices vision_res) as [|choice rest]; [split; reflexivity|].
  cbn zeta. rewrite trace_pair.
  set (stage2 := create_structured 2 0 (BRAIN_MODEL_ID settings)
                   (brain_messages (reply choice))).
  assert (forall kind,
             kind (StructuredCall "" []) = false ->
             (forall m s, kind (StructuredCall m s) = kind (StructuredCall "" [])) ->
             invocations kind (trace stage2) = 0%nat) as Hnone.
  { intros kind Hkind Hsame. apply invocations_none.
    intros ev (sent & ->)%create_structured_events. now rewrite Hsame. }
  unfold stage1_events, stage2_line.
  rewrite !invocations_app, !invocations_cons, !invocations_app,
    !invocations_cons, invocations_nil.
  rewrite !Hnone by reflexivity.
  destruct (outcome stage2); split; reflexivity.
Qed.

(** X8.  Extraction comes after the rest: wherever a structured call
    stands among the events of a request, it is addressed to the brain
    model, and before it the upload was read once and the vision call made
    once. *)
Theorem extraction_follows_read_and_vision
    `{pil : Pillow} `{ep : Endpoint} `{txt : ExceptionText}
    (settings : Settings) (file : UploadFile)
    (i : nat) (model : string) (sent : list message) :
  nth_error (trace (generate_schema settings file)) i
  = Some (StructuredCall model sent) ->
  model = BRAIN_MODEL_ID settings
  /\ invocations is_file_read (firstn i (trace (generate_schema settings file))) = 1%nat
  /\ invocations is_chat_call (firstn i (trace (generate_schema settings file))) = 1%nat.
Proof.
  destruct (contains ACCEPTED (content_type file)) eqn:Hct;
    [|rewrite (generate_schema_rejected _ _ Hct); now destruct i].
  rewrite (generate_schema_run _ _ Hct).
  destruct (read file) as [e|content];
    [intros Hin%nth_error_In; simpl in Hin; intuition discriminate|].
  destruct (complete _ _ _) as [e|vision_res];
    [intros Hin%nth_error_In; simpl in Hin; intuition discriminate|].
  destruct (choices vision_res) as [|choice rest];
    [intros Hin%nth_error_In; simpl in Hin; intuition discriminate|].
  cbn zeta. rewrite trace_pair.
  set (stage2 := create_structured 2 0 (BRAIN_MODEL_ID settings)
                   (brain_messages (reply choice))).
  set (last_line := match outcome stage2 with
                    | inr schema => success_line schema
                    | inl e => error_line e
                    end).
  assert (exists level msg, last_line = Log level msg) as (level & msg & Hlast).
  { unfold last_line, success_line, error_line. destruct (outcome stage2); eauto. }
  assert (forall ev, In ev (trace stage2 ++ [last_line]) ->
                     ev = last_line \/ exists s, ev = StructuredCall (BRAIN_MODEL_ID settings) s)
    as Htail.
  { intros ev [Hin|[<-|[]]]%in_app_iff; [right|left; reflexivity].
    now apply create_structured_events in Hin. }
  unfold stage1_events, stage2_line.
  change ([?a; ?b; ?c] ++ ?t) with (a :: b :: c :: t).
  do 4 (destruct i as [|i]; [discriminate|]).
  cbn [nth_error firstn]. intros Hnth.
  split; [|split].
  - apply nth_error_In, Htail in Hnth as [Heq|(s & [= -> _])]; [|reflexivity].
    rewrite Hlast in Heq. discriminate Heq.
  - rewrite !invocations_cons. cbn [is_file_read].
    rewrite invocations_none; [reflexivity|].
    intros ev [->|(s & ->)]%In_firstn%Htail; [now rewrite Hlast | reflexivity].
  - rewrite !invocations_cons. cbn [is_chat_call].
    rewrite invocations_none; [reflexivity|].
    intros ev [->|(s & ->)]%In_firstn%Htail; [now rewrite Hlast | reflexivity].
Qed.

Lemma extraction_follows_read_and_vision_witness :
  invocations is_chat_call
    (firstn 4 (trace (generate_schema (pil := raw_codec) (ep := good_double)
                        (txt := plain_text) default_settings png_upload)))
  = 1%nat.
Proof.
  apply (extraction_follows_read_and_vision
           (pil := raw_codec) (ep := good_double) (txt := plain_text)
           default_settings png_upload 4 "Qwen/Qwen2.5-Coder-7B-Instruct"
           (brain_messages (Some users_orders_description))).
  reflexivity.
Defined.

(** X9.  What stage 2 is asked: the first structured call of a request
    goes to the brain model with the system instruction and one user
    message around the content of the first choice of the vision
    completion -- the text ["None"] when that choice has no content; the
    other choices play no part. *)
Theorem extraction_prompt_embeds_description
    `{pil : Pillow} `{ep : Endpoint} `{txt : ExceptionText}
    (settings : Settings) (file : UploadFile)
    (content : bytes) (vision_res : ChatCompletion) (choice : Choice)
    (rest : list Choice) :
  contains ACCEPTED (content_type file) = true ->
  read file = inr content ->
  complete (VISION_MODEL_ID settings)
    (vision_messages (data_url (base64.b64encode content))) 2000
  = inr vision_res ->
  choices vision_res = choice :: rest ->
  find is_structured_call (trace (generate_schema settings file))
  = Some (StructuredCall (BRAIN_MODEL_ID settings)
            [ {| role := "system";
                 content := Text "You are a senior Data Engineer. Extract the database schema strictly." |};
              {| role := "user";
                 content := Text ("Create the schema based on this description:"
                                  ++ String "010" (String "010"
                                       match reply choice with
                                       | Some description => description
                                       | None => "None"
                                       end))%string |} ]).
Proof.
  intros Hct Hread Hvision Hchoices.
  rewrite (generate_schema_run _ _ Hct), Hread, Hvision, Hchoices.
  cbn zeta. rewrite trace_pair.
  destruct (create_structured_head 2 0 (BRAIN_MODEL_ID settings)
              (brain_messages (reply choice))) as [more ->].
  reflexivity.
Qed.

Lemma extraction_prompt_embeds_description_witness :
  find is_structured_call
    (trace (generate_schema (pil := raw_codec) (ep := silent_vision_double)
              (txt := plain_text) default_settings png_upload))
  = Some (StructuredCall "Qwen/Qwen2.5-Coder-7B-Instruct"
            [ {| role := "system";
                 content := Text "You are a senior Data Engineer. Extract the database schema strictly." |};
              {| role := "user";
                 content := Text ("Create the schema based on this description:"
                                  ++ String "010" (String "010" "None"))%string |} ]).
Proof.
  apply (extraction_prompt_embeds_description
           (pil := raw_codec) (ep := silent_vision_double) (txt := plain_text)
           default_settings png_upload white_pixel
           {| choices := [ {| reply := None |} ] |} {| reply := None |} []);
    reflexivity.
Defined.

(** X10.  The answer and the log agree.  When a schema is returned, the
    last event is the success line with the number of its tables and no
    error line was logged; when the answer is a 500, exactly one error
    line was logged, it is the last event, and it names the same cause as
    the answer; a 400 is answered without any event. *)
Theorem answer_and_log_agree
    `{pil : Pillow} `{ep : Endpoint} `{txt : ExceptionText}
    (settings : Settings) (file : UploadFile) :
  (forall schema,
      outcome (generate_schema settings file) = inr schema ->
      (exists before,
          trace (generate_schema settings file) = before ++ [success_line schema])
      /\ invocations is_error_log (trace (generate_schema settings file)) = 0%nat)
  /\ (forall detail,
        outcome (generate_schema settings file) = inl (HTTPException 500 detail) ->
        exists before e,
          trace (generate_schema settings file) = before ++ [error_line e]
          /\ detail = ("Processing failed: " ++ str e)%string
          /\ invocations is_error_log (trace (generate_schema settings file)) = 1%nat)
  /\ (forall detail,
        outcome (generate_schema settings file) = inl (HTTPException 400 detail) ->
        trace (generate_schema settings file) = []).
Proof.
  destruct (contains ACCEPTED (content_type file)) eqn:Hct;
    [|rewrite (generate_schema_rejected _ _ Hct);
      repeat split; try discriminate].
  rewrite (generate_schema_run _ _ Hct).
  assert (forall before e,
             invocations is_error_log before = 0%nat ->
             invocations is_error_log (before ++ [error_line e]) = 1%nat) as Hone.
  { intros before e Hbefore. now rewrite invocations_app, Hbefore. }
  destruct (read file) as [e|content].
  { repeat split; try discriminate.
    intros detail [= <-]. exists [FileRead], e. repeat split. }
  destruct (complete _ _ _) as [e|vision_res].
  { repeat split; try discriminate.
    intros detail [= <-]. exists (stage1_events settings content), e.
    repeat split. }
  destruct (choices vision_res) as [|choice rest].
  { repeat split; try discriminate.
    intros detail [= <-].
    exists (stage1_events settings content), (IndexError "list index out of range").
    repeat split. }
  cbn zeta. rewrite trace_pair, outcome_pair.
  set (stage2 := create_structured 2 0 (BRAIN_MODEL_ID settings)
                   (brain_messages (reply choice))).
  assert (invocations is_error_log
            (stage1_events settings content ++ stage2_line :: trace stage2) = 0%nat)
    as Hquiet.
  { rewrite invocations_app, invocations_cons,
      (invocations_none is_error_log (trace stage2)); [reflexivity|].
    now intros ev (sent & ->)%create_structured_events. }
  assert (forall line,
             stage1_events settings content ++ stage2_line :: trace stage2 ++ [line]
             = (stage1_events settings content ++ stage2_line :: trace stage2)
               ++ [line]) as Hassoc.
  { intros line. now rewrite <- app_assoc. }
  rewrite Hassoc.
  destruct (outcome stage2) as [e|valid]; split; [|split| |split];
    try discriminate.
  - intros detail [= <-]. eexists _, e. repeat split. now apply Hone.
  - intros schema [= <-]. split; [eauto|].
    now rewrite invocations_app, Hquiet.
Qed.

Lemma answer_and_log_agree_witness :
  exists before,
    trace (generate_schema (pil := raw_codec) (ep := good_double)
             (txt := plain_text) default_settings png_upload)
    = before ++ [Log "INFO" "🎉 Success! Generated 2 tables."].
Proof.
  apply (proj1 (answer_and_log_agree
                  (pil := raw_codec) (ep := good_double) (txt := plain_text)
                  default_settings png_upload) users_orders_schema eq_refl).
Defined.

(** X11.  Whatever schema [generate_schema] returns, each of its columns
    has one of the six column types and each of its relationships one of
    the three relationship types. *)
Theorem returned_schema_has_literal_types
    `{pil : Pillow} `{ep : Endpoint} `{txt : ExceptionText}
    (settings : Settings) (file : UploadFile) (schema : DatabaseSchema) :
  outcome (generate_schema settings file) = inr schema ->
  (forall T c, In T (tables schema) -> In c (columns T) ->
               In (col_type c) ["UUID"; "TEXT"; "INTEGER"; "BOOLEAN"; "TIMESTAMP"; "JSON"])
  /\ (forall r, In r (relationships schema) ->
                In (rel_type r) ["1:1"; "1:N"; "N:N"]).
Proof.
  intros (attempt & sent & [v|] & _ & Hvalid)%generate_schema_returns_validated;
    [|discriminate Hvalid].
  split.
  - now apply schema_column_types with (v := v).
  - now apply schema_relationship_types with (v := v).
Qed.

Lemma returned_schema_has_literal_types_witness :
  In (rel_type {| from_table := "orders"; from_column := "user_id";
                  to_table := "users"; to_column := "id"; rel_type := "1:N" |})
     ["1:1"; "1:N"; "N:N"].
Proof.
  apply (proj2 (returned_schema_has_literal_types
                  (pil := raw_codec) (ep := good_double) (txt := plain_text)
                  default_settings png_upload users_orders_schema eq_refl)).
  simpl. auto.
Defined.

(** X12.  When the first output of the extraction model validates, the
    request makes that one structured call and returns the validated
    schema: its events are the read, the two stage lines around the vision
    call, the structured call and the success line, and nothing else. *)
Theorem conforming_first_output_needs_one_call
    `{pil : Pillow} `{ep : Endpoint} `{txt : ExceptionText}
    (settings : Settings) (file : UploadFile)
    (content : bytes) (vision_res : ChatCompletion) (choice : Choice)
    (rest : list Choice) (raw : option json) (schema : DatabaseSchema) :
  contains ACCEPTED (content_type file) = true ->
  read file = inr content ->
  complete (VISION_MODEL_ID settings)
    (vision_messages (data_url (base64.b64encode content))) 2000
  = inr vision_res ->
  choices vision_res = choice :: rest ->
  complete_json 0 (BRAIN_MODEL_ID settings) (brain_messages (reply choice))
  = inr raw ->
  model_validate_json raw = inr schema ->
  generate_schema settings file
  = (stage1_events settings content
     ++ [ stage2_line;
          StructuredCall (BRAIN_MODEL_ID settings) (brain_messages (reply choice));
          success_line schema ],
     inr schema).
Proof.
  intros Hct Hread Hvision Hchoices Hcall Hvalid.
  rewrite (generate_schema_run _ _ Hct), Hread, Hvision, Hchoices.
  cbn zeta. rewrite create_structured_step, Hcall, Hvalid. reflexivity.
Qed.

Lemma conforming_first_output_needs_one_call_witness :
  invocations is_structured_call
    (trace (generate_schema (pil := raw_codec) (ep := good_double)
              (txt := plain_text) default_settings png_upload)) = 1%nat.
Proof.
  rewrite (conforming_first_output_needs_one_call
             (pil := raw_codec) (ep := good_double) (txt := plain_text)
             default_settings png_upload white_pixel described
             {| reply := Some users_orders_description |} []
             (Some users_orders_json) users_orders_schema
             eq_refl eq_refl eq_refl eq_refl eq_refl eq_refl).
  reflexivity.
Defined.

(** X13.  The answer is a 400 exactly when the declared content type is
    none of the three accepted strings; the comparison is by equality of
    strings, so another spelling of an accepted type is refused too. *)
Theorem bad_request_iff_content_type_not_accepted
    `{pil : Pillow} `{ep : Endpoint} `{txt : ExceptionText}
    (settings : Settings) (file : UploadFile) :
  (exists detail,
      outcome (generate_schema settings file) = inl (HTTPException 400 detail))
  <-> (content_type file <> Some "image/jpeg"
       /\ content_type file <> Some "image/png"
       /\ content_type file <> Some "image/webp").
Proof.
  split.
  - intros [detail Hout].
    destruct (contains ACCEPTED (content_type file)) eqn:Hct.
    + exfalso. revert Hout. rewrite (generate_schema_outcome _ _ Hct).
      destruct (outcome (generate_schema_try settings file)); discriminate.
    + repeat split; intros Heq; rewrite Heq in Hct; discriminate Hct.
  - intros (Hjpeg & Hpng & Hwebp). exists "Invalid file type.".
    rewrite generate_schema_rejected; [reflexivity|].
    apply contains_false. intros s [<-|[<-|[<-|[]]]]; assumption.
Qed.

Lemma bad_request_iff_content_type_not_accepted_witness :
  exists detail,
    outcome (generate_schema (pil := raw_codec) (ep := good_double)
               (txt := plain_text) default_settings uppercase_upload)
    = inl (HTTPException 400 detail).
Proof.
  apply (proj2 (bad_request_iff_content_type_not_accepted
                  (pil := raw_codec) (ep := good_double) (txt := plain_text)
                  default_settings uppercase_upload)).
  repeat split; discriminate.
Defined.

(** * Further properties of the encoding *)

Lemma list_ind3 {A} (P : list A -> Prop) :
  P [] ->
  (forall a, P [a]) ->
  (forall a b, P [a; b]) ->
  (forall a b c l, P l -> P (a :: b :: c :: l)) ->
  forall l, P l.
Proof.
  intros H0 H1 H2 H3.
  assert (forall l, P l /\ (forall a, P (a :: l)) /\ (forall a b, P (a :: b :: l)))
    as Hall.
  { induction l as [|x l (IH0 & IH1 & IH2)]; repeat split; auto. }
  intros l. apply Hall.
Qed.

Lemma b64encode_one (a : Byte.byte) :
  base64.b64encode [a]
  = let g := N.shiftl (Byte.to_N a) 16 in
    String (base64.sextet g 18) (String (base64.sextet g 12) "==").
Proof. reflexivity. Qed.

Lemma b64encode_two (a b : Byte.byte) :
  base64.b64encode [a; b]
  = let g := N.lor (N.shiftl (Byte.to_N a) 16) (N.shiftl (Byte.to_N b) 8) in
    String (base64.sextet g 18) (String (base64.sextet g 12)
      (String (base64.sextet g 6) "=")).
Proof. reflexivity. Qed.

Lemma b64encode_three (a b c : Byte.byte) (rest : bytes) :
  base64.b64encode (a :: b :: c :: rest)
  = let g := N.lor (N.lor (N.shiftl (Byte.to_N a) 16)
                          (N.shiftl (Byte.to_N b) 8)) (Byte.to_N c) in
    String (base64.sextet g 18) (String (base64.sextet g 12)
      (String (base64.sextet g 6) (String (base64.sextet g 0)
         (base64.b64encode rest)))).
Proof. reflexivity. Qed.

Lemma b64encode_length (s : bytes) :
  String.length (base64.b64encode s) = (4 * ((length s + 2) / 3))%nat.
Proof.
  induction s as [|a|a b|a b c rest IH] using list_ind3; try reflexivity.
  rewrite b64encode_three. cbn zeta. cbn [String.length length].
  rewrite IH.
  replace (S (S (S (length rest))) + 2)%nat with (length rest + 2 + 1 * 3)%nat by lia.
  rewrite Nat.div_add by discriminate. lia.
Qed.

Lemma sextet_value (g sh : N) :
  N.land (N.shiftr g sh) 63 = ((g / 2 ^ sh) mod 64)%N.
Proof.
  rewrite N.shiftr_div_pow2. change 63%N with (N.ones 6).
  now rewrite N.land_ones.
Qed.

Lemma sextet_value_lt (g sh : N) : (N.land (N.shiftr g sh) 63 < 64)%N.
Proof. rewrite sextet_value. now apply N.mod_lt. Qed.

(** The 64 digits are pairwise distinct letters of the alphabet, none of
    them the padding sign. *)
Lemma digit_cases (n : N) :
  (n < 64)%N ->
  In (base64.digit n) (list_ascii_of_string base64.alphabet)
  /\ base64.digit n <> "="%char
  /\ N.of_nat (nat_of_ascii (base64.digit n))
     = (if n <? 26 then n + 65
        else if n <? 52 then n + 71
        else if n <? 62 then n - 4
        else if n =? 62 then 43 else 47)%N.
Proof.
  intros Hlt.
  assert (exists k, (k < 64)%nat /\ n = N.of_nat k) as (k & Hk & ->).
  { exists (N.to_nat n). split; [lia | now rewrite N2Nat.id]. }
  clear Hlt.
  do 64 (destruct k as [|k];
         [split; [vm_compute; tauto | split; [discriminate | reflexivity]]|]).
  lia.
Qed.

Lemma digit_inj (n m : N) :
  (n < 64)%N -> (m < 64)%N -> base64.digit n = base64.digit m -> n = m.
Proof.
  intros Hn Hm Heq.
  pose proof (digit_cases n Hn) as (_ & _ & Hcn).
  pose proof (digit_cases m Hm) as (_ & _ & Hcm).
  rewrite Heq, Hcm in Hcn. clear Heq Hcm.
  destruct (N.ltb_spec m 26), (N.ltb_spec m 52), (N.ltb_spec m 62),
    (N.eqb_spec m 62), (N.ltb_spec n 26), (N.ltb_spec n 52), (N.ltb_spec n 62),
    (N.eqb_spec n 62); lia.
Qed.

Lemma sextet_inj (g g' sh : N) :
  base64.sextet g sh = base64.sextet g' sh ->
  ((g / 2 ^ sh) mod 64 = (g' / 2 ^ sh) mod 64)%N.
Proof.
  unfold base64.sextet. intros Heq.
  apply digit_inj in Heq; auto using sextet_value_lt.
  now rewrite !sextet_value in Heq.
Qed.

Lemma sextet_not_padding (g sh : N) : base64.sextet g sh <> "="%char.
Proof. apply digit_cases, sextet_value_lt. Qed.

Lemma sextet_in_alphabet (g sh : N) :
  In (base64.sextet g sh) (list_ascii_of_string base64.alphabet).
Proof. apply digit_cases, sextet_value_lt. Qed.

Lemma lor_shiftl_small (x y n : N) :
  (y < 2 ^ n)%N -> N.lor (N.shiftl x n) y = (x * 2 ^ n + y)%N.
Proof.
  intros Hy.
  assert (N.land (N.shiftl x n) y = 0%N) as Hdisjoint.
  { apply N.bits_inj. intros m. rewrite N.land_spec, N.bits_0.
    destruct (N.ltb_spec m n) as [Hlow|Hhigh].
    - now rewrite N.shiftl_spec_low.
    - rewrite <- (N.mod_small y (2 ^ n)) by assumption.
      rewrite N.mod_pow2_bits_high by assumption. apply andb_false_r. }
  rewrite <- N.lxor_lor, <- N.add_nocarry_lxor by assumption.
  now rewrite N.shiftl_mul_pow2.
Qed.

(** The 24-bit group of three bytes, as a number. *)
Lemma group_value (a b c : N) :
  (b < 256)%N -> (c < 256)%N ->
  N.lor (N.lor (N.shiftl a 16) (N.shiftl b 8)) c = (a * 65536 + b * 256 + c)%N
  /\ N.lor (N.shiftl a 16) (N.shiftl b 8) = (a * 65536 + b * 256)%N
  /\ N.shiftl a 16 = (a * 65536)%N.
Proof.
  intros Hb Hc.
  assert (N.shiftl b 8 = b * 256)%N as Hb8 by now rewrite N.shiftl_mul_pow2.
  assert (N.lor (N.shiftl a 16) (N.shiftl b 8) = a * 65536 + b * 256)%N as Hab.
  { rewrite lor_shiftl_small; [now rewrite Hb8|].
    rewrite Hb8. change (2 ^ 16)%N with 65536%N. lia. }
  split; [|split; [exact Hab | now rewrite N.shiftl_mul_pow2]].
  rewrite Hab.
  replace (a * 65536 + b * 256)%N with (N.shiftl (a * 256 + b) 8)
    by (rewrite N.shiftl_mul_pow2; change (2 ^ 8)%N with 256%N; lia).
  rewrite lor_shiftl_small by exact Hc.
  rewrite !N.shiftl_mul_pow2. change (2 ^ 8)%N with 256%N. lia.
Qed.

Lemma byte_lt (x : Byte.byte) : (Byte.to_N x < 256)%N.
Proof. pose proof (Byte.to_N_bounded x). lia. Qed.

Lemma to_N_inj (x y : Byte.byte) : Byte.to_N x = Byte.to_N y -> x = y.
Proof.
  intros Heq. pose proof (Byte.of_to_N x) as Hx.
  rewrite Heq, Byte.of_to_N in Hx. now injection Hx.
Qed.

Lemma sextets_determine_Z (a b c a' b' c' : Z) :
  (0 <= a < 256 -> 0 <= b < 256 -> 0 <= c < 256 ->
   0 <= a' < 256 -> 0 <= b' < 256 -> 0 <= c' < 256 ->
   let g := a * 65536 + b * 256 + c in
   let g' := a' * 65536 + b' * 256 + c' in
   (g / 262144) mod 64 = (g' / 262144) mod 64 ->
   (g / 4096) mod 64 = (g' / 4096) mod 64 ->
   (g / 64) mod 64 = (g' / 64) mod 64 ->
   (g / 1) mod 64 = (g' / 1) mod 64 ->
   a = a' /\ b = b' /\ c = c')%Z.
Proof.
  intros Ha Hb Hc Ha' Hb' Hc' g g'.
  assert (0 <= g < 16777216)%Z by (subst g; lia).
  assert (0 <= g' < 16777216)%Z by (subst g'; lia).
  intros. assert (g = g').
  { clearbody g g'. rewrite !Z.div_1_r in *. Z.div_mod_to_equations. lia. }
  subst g g'. lia.
Qed.

Lemma last_sextet_of_two_Z (a b : Z) :
  (((a * 65536 + b * 256 + 0) / 1) mod 64 = 0)%Z.
Proof.
  rewrite Z.div_1_r.
  replace (a * 65536 + b * 256 + 0)%Z with ((a * 1024 + b * 4) * 64)%Z by lia.
  apply Z.mod_mul. discriminate.
Qed.

Lemma third_sextet_of_one_Z (a : Z) :
  (((a * 65536 + 0 * 256 + 0) / 64) mod 64 = 0)%Z.
Proof.
  replace (a * 65536 + 0 * 256 + 0)%Z with ((a * 1024) * 64)%Z by lia.
  rewrite Z.div_mul by discriminate.
  replace (a * 1024)%Z with ((a * 16) * 64)%Z by lia.
  apply Z.mod_mul. discriminate.
Qed.

(** Bytes whose groups show the same sextets are the same bytes; of a
    group of two bytes only three sextets count, of a single byte two. *)
Lemma sextets_determine (a b c a' b' c' : N) :
  (a < 256 -> b < 256 -> c < 256 -> a' < 256 -> b' < 256 -> c' < 256 ->
   let g := a * 65536 + b * 256 + c in
   let g' := a' * 65536 + b' * 256 + c' in
   (g / 2 ^ 18) mod 64 = (g' / 2 ^ 18) mod 64 ->
   (g / 2 ^ 12) mod 64 = (g' / 2 ^ 12) mod 64 ->
   (c = 0 /\ c' = 0 /\ b = 0 /\ b' = 0
    \/ (g / 2 ^ 6) mod 64 = (g' / 2 ^ 6) mod 64
       /\ (c = 0 /\ c' = 0 \/ (g / 2 ^ 0) mod 64 = (g' / 2 ^ 0) mod 64)) ->
   a = a' /\ b = b' /\ c = c')%N.
Proof.
  cbn zeta.
  change (2 ^ 18)%N with 262144%N. change (2 ^ 12)%N with 4096%N.
  change (2 ^ 6)%N with 64%N. change (2 ^ 0)%N with 1%N.
  intros Ha Hb Hc Ha' Hb' Hc' H18 H12 Hrest.
  apply (f_equal Z.of_N) in H18, H12.
  rewrite !N2Z.inj_mod, !N2Z.inj_div, !N2Z.inj_add, !N2Z.inj_mul in H18, H12.
  assert (Z.of_N a = Z.of_N a' /\ Z.of_N b = Z.of_N b' /\ Z.of_N c = Z.of_N c')
    as (Hza & Hzb & Hzc).
  { apply sextets_determine_Z; try lia; try assumption.
    - destruct Hrest as [(-> & -> & -> & ->)|[H6 _]].
      + change (Z.of_N 0) with 0%Z.
        now rewrite !third_sextet_of_one_Z.
      + apply (f_equal Z.of_N) in H6.
        now rewrite !N2Z.inj_mod, !N2Z.inj_div, !N2Z.inj_add, !N2Z.inj_mul in H6.
    - destruct Hrest as [(-> & -> & _)|[_ [(-> & ->)|H0]]].
      + change (Z.of_N 0) with 0%Z. now rewrite !last_sextet_of_two_Z.
      + change (Z.of_N 0) with 0%Z. now rewrite !last_sextet_of_two_Z.
      + apply (f_equal Z.of_N) in H0.
        now rewrite !N2Z.inj_mod, !N2Z.inj_div, !N2Z.inj_add, !N2Z.inj_mul in H0. }
  repeat split; now apply N2Z.inj.
Qed.

Lemma group_of_bytes (a b c : Byte.byte) :
  N.lor (N.lor (N.shiftl (Byte.to_N a) 16) (N.shiftl (Byte.to_N b) 8)) (Byte.to_N c)
  = (Byte.to_N a * 65536 + Byte.to_N b * 256 + Byte.to_N c)%N
  /\ N.lor (N.shiftl (Byte.to_N a) 16) (N.shiftl (Byte.to_N b) 8)
     = (Byte.to_N a * 65536 + Byte.to_N b * 256 + 0)%N
  /\ N.shiftl (Byte.to_N a) 16 = (Byte.to_N a * 65536 + 0 * 256 + 0)%N.
Proof.
  destruct (group_value (Byte.to_N a) (Byte.to_N b) (Byte.to_N c)
              (byte_lt b) (byte_lt c)) as (H3 & H2 & H1).
  rewrite H3, H2, H1. repeat split; lia.
Qed.

Lemma group_three_inj (a b c a' b' c' : Byte.byte) :
  let g := N.lor (N.lor (N.shiftl (Byte.to_N a) 16) (N.shiftl (Byte.to_N b) 8))
                 (Byte.to_N c) in
  let g' := N.lor (N.lor (N.shiftl (Byte.to_N a') 16) (N.shiftl (Byte.to_N b') 8))
                  (Byte.to_N c') in
  base64.sextet g 18 = base64.sextet g' 18 ->
  base64.sextet g 12 = base64.sextet g' 12 ->
  base64.sextet g 6 = base64.sextet g' 6 ->
  base64.sextet g 0 = base64.sextet g' 0 ->
  a = a' /\ b = b' /\ c = c'.
Proof.
  cbn zeta. intros H18%sextet_inj H12%sextet_inj H6%sextet_inj H0%sextet_inj.
  rewrite (proj1 (group_of_bytes a b c)), (proj1 (group_of_bytes a' b' c')) in *.
  destruct (sextets_determine (Byte.to_N a) (Byte.to_N b) (Byte.to_N c)
              (Byte.to_N a') (Byte.to_N b') (Byte.to_N c'))
    as (Ha & Hb & Hc); auto using byte_lt, to_N_inj.
Qed.

Lemma group_two_inj (a b a' b' : Byte.byte) :
  let g := N.lor (N.shiftl (Byte.to_N a) 16) (N.shiftl (Byte.to_N b) 8) in
  let g' := N.lor (N.shiftl (Byte.to_N a') 16) (N.shiftl (Byte.to_N b') 8) in
  base64.sextet g 18 = base64.sextet g' 18 ->
  base64.sextet g 12 = base64.sextet g' 12 ->
  base64.sextet g 6 = base64.sextet g' 6 ->
  a = a' /\ b = b'.
Proof.
  cbn zeta. intros H18%sextet_inj H12%sextet_inj H6%sextet_inj.
  rewrite (proj1 (proj2 (group_of_bytes a b a))),
    (proj1 (proj2 (group_of_bytes a' b' a'))) in *.
  destruct (sextets_determine (Byte.to_N a) (Byte.to_N b) 0
              (Byte.to_N a') (Byte.to_N b') 0)
    as (Ha & Hb & _); auto using byte_lt, to_N_inj; reflexivity.
Qed.

Lemma group_one_inj (a a' : Byte.byte) :
  let g := N.shiftl (Byte.to_N a) 16 in
  let g' := N.shiftl (Byte.to_N a') 16 in
  base64.sextet g 18 = base64.sextet g' 18 ->
  base64.sextet g 12 = base64.sextet g' 12 ->
  a = a'.
Proof.
  cbn zeta. intros H18%sextet_inj H12%sextet_inj.
  rewrite (proj2 (proj2 (group_of_bytes a a a))),
    (proj2 (proj2 (group_of_bytes a' a' a'))) in *.
  destruct (sextets_determine (Byte.to_N a) 0 0 (Byte.to_N a') 0 0)
    as (Ha & _ & _); auto using byte_lt, to_N_inj; reflexivity.
Qed.

Ltac split_strings :=
  repeat match goal with
    | H : String _ _ = String _ _ |- _ => injection H as ? ?
    | H : String _ _ = EmptyString |- _ => discriminate H
    | H : EmptyString = String _ _ |- _ => discriminate H
    | H : "="%char = base64.sextet _ _ |- _ =>
        symmetry in H; now apply sextet_not_padding in H
    | H : base64.sextet _ _ = "="%char |- _ =>
        now apply sextet_not_padding in H
    end.

Lemma b64encode_inj (s1 : bytes) :
  forall s2, base64.b64encode s1 = base64.b64encode s2 -> s1 = s2.
Proof.
  induction s1 as [|a|a b|a b c rest IH] using list_ind3;
    intros [|a' [|b' [|c' rest']]];
    rewrite ?b64encode_one, ?b64encode_two, ?b64encode_three; cbn zeta;
    change (base64.b64encode []) with EmptyString;
    intros Heq; split_strings; try reflexivity.
  - f_equal. eapply group_one_inj; eassumption.
  - destruct (group_two_inj a b a' b') as [-> ->]; auto.
  - destruct (group_three_inj a b c a' b' c') as (-> & -> & ->); auto.
    f_equal. f_equal. f_equal. now apply IH.
Qed.

Lemma b64encode_chars (s : bytes) (c : ascii) :
  In c (list_ascii_of_string (base64.b64encode s)) ->
  In c (list_ascii_of_string base64.alphabet) \/ c = "="%char.
Proof.
  induction s as [|a|a b|a b x rest IH] using list_ind3;
    rewrite ?b64encode_one, ?b64encode_two, ?b64encode_three; cbn zeta;
    change (base64.b64encode []) with EmptyString;
    cbn [list_ascii_of_string In]; intros Hin;
    repeat (destruct Hin as [<-|Hin]; [auto using sextet_in_alphabet|]);
    auto; contradiction.
Qed.

(** X14.  The normaliser's result is well-formed base64 of the upload:
    four characters for every three bytes or part of three, each a letter
    of the base64 alphabet or the padding sign. *)
Theorem process_image_result_is_padded_base64 `{pil : Pillow} (image_bytes : bytes) :
  exists s,
    process_image image_bytes = ([], inr s)
    /\ String.length s = (4 * ((length image_bytes + 2) / 3))%nat
    /\ (forall c, In c (list_ascii_of_string s) ->
                  In c (list_ascii_of_string base64.alphabet) \/ c = "="%char).
Proof.
  exists (base64.b64encode image_bytes).
  split; [apply process_image_eq|split].
  - apply b64encode_length.
  - apply b64encode_chars.
Qed.

Lemma process_image_result_is_padded_base64_witness :
  exists s,
    process_image (pil := raw_codec) white_pixel = ([], inr s)
    /\ String.length s = 8%nat
    /\ (In "/"%char (list_ascii_of_string s) ->
        In "/"%char (list_ascii_of_string base64.alphabet) \/ "/"%char = "="%char).
Proof.
  destruct (process_image_result_is_padded_base64 (pil := raw_codec) white_pixel)
    as (s & Hrun & Hlen & Hchars).
  exists s. split; [exact Hrun | split; [exact Hlen | apply Hchars]].
Defined.

(** X15.  The normaliser loses nothing: uploads with the same result,
    under one codec or two, are the same bytes; so the data URL of the
    vision call determines the upload. *)
Theorem process_image_result_determines_upload
    (pil1 pil2 : Pillow) (bytes1 bytes2 : bytes) :
  (outcome (process_image (pil := pil1) bytes1)
   = outcome (process_image (pil := pil2) bytes2) ->
   bytes1 = bytes2)
  /\ (vision_messages (data_url (base64.b64encode bytes1))
      = vision_messages (data_url (base64.b64encode bytes2)) ->
      bytes1 = bytes2).
Proof.
  split.
  - rewrite !process_image_eq. cbn [outcome snd]. intros [= Heq].
    now apply b64encode_inj.
  - unfold vision_messages, data_url. intros [= Heq].
    now apply b64encode_inj in Heq.
Qed.

Lemma process_image_result_determines_upload_witness :
  base64.b64encode black_pixel = base64.b64encode [Byte.x01; Byte.x01; Byte.x00; Byte.x00; Byte.x00]
  /\ black_pixel = [Byte.x01; Byte.x01; Byte.x00; Byte.x00; Byte.x00].
Proof.
  split; [reflexivity|].
  apply (proj1 (process_image_result_determines_upload raw_codec raw_codec
                  black_pixel [Byte.x01; Byte.x01; Byte.x00; Byte.x00; Byte.x00])).
  reflexivity.
Defined.
